(** * DiverseSelector: the metric calculation module

    A shallow embedding of [DiverseSelector/distance.py] and the
    verification of its specification.

    Modelling decisions.

    - Feature vectors are one-dimensional integer arrays, [list Z]; a
      feature matrix is the list of its rows.  Bit fingerprints hold 0
      and 1, the functions themselves accept any integers.  Counts of
      entries are unbounded [Z]: they stay far below 2^53 for every
      array that fits in memory.  The products and sums of entries that
      [tanimoto] and [modified_tanimoto] form are 64-bit integers in
      numpy and wrap around; they are modelled on [Z], which is what the
      code computes as long as they fit 64 bits, as they do on bit
      vectors: the values of these two functions are stated for bit
      vectors only.
    - Floating-point results are IEEE binary64 values, Rocq's primitive
      [float]; sums, products, differences and comparisons of floats are
      the primitive operations.  The quotient of two integers is the
      correctly rounded quotient, computed by [SpecFloat.SFdiv] on
      integer mantissas: Python's [int / int], and below 2^53 also the
      IEEE division of the converted operands that numpy performs
      ([np_true_divide_ieee]).
    - [x ** 0.5] is CPython's float power, the C library's [pow], which
      IEEE 754 does not require to be correctly rounded: it is the
      square root up to the last bit.  [euc_bit_with] takes the power
      function as an argument, and what is proved of it holds of every
      C library; [euc_bit] instantiates it with the correctly rounded
      square root, which is the value of the power wherever the root is
      exact (0, 1, 100 = 10000 ** 0.5) and orders the integer counts as
      the power does.
    - Python exceptions are an explicit error type, threaded through the
      code by a small error monad.
    - [DiverseSelector.utils.sklearn_supported_metrics] and the scikit-learn
      backend are parameters; scipy's [squareform] and numpy's [identity],
      [+] and [average] are modelled from their documented behaviour,
      [average] with the pairwise summation of numpy's [add.reduce]. *)

From Stdlib Require Import Floats.
From Stdlib Require Import String ZArith Bool Lia PeanoNat List.
From Stdlib Require Import DecimalString.
Import ListNotations.

(* ================================================================== *)
(** * Exceptions and the error monad *)

Inductive exn : Type :=
| IndexError
| ZeroDivisionError
| KeyError (key : string)
| TypeError (msg : string)
| ValueError (msg : string).

Inductive result (A : Type) : Type :=
| Ok (v : A)
| Raise (e : exn).

Arguments Ok {A} v.
Arguments Raise {A} e.

Definition bind {A B : Type} (m : result A) (k : A -> result B) : result B :=
  match m with
  | Ok v => k v
  | Raise e => Raise e
  end.

Declare Scope py_scope.
Delimit Scope py_scope with py.
Notation "x <- m ;; k" := (bind m (fun x => k))
  (at level 61, m at next level, right associativity) : py_scope.
Open Scope py_scope.

(** A [for] loop over the items [l], threading the loop state; the
    first exception raised by the body leaves the loop. *)
Fixpoint for_each {S I : Type} (body : S -> I -> result S) (l : list I) (s : S)
  : result S :=
  match l with
  | [] => Ok s
  | i :: rest => s' <- body s i ;; for_each body rest s'
  end.

(* ================================================================== *)
(** * Numbers *)

Open Scope Z_scope.

(** An integer as a binary float with exponent 0. *)
Definition Z2SF (z : Z) : spec_float :=
  match z with
  | Z0 => S754_zero false
  | Zpos m => S754_finite false m 0
  | Zneg m => S754_finite true m 0
  end.

(** The binary64 nearest to the quotient [x / y] of two integers, [y]
    not zero. *)
Definition Zdiv2float (x y : Z) : float :=
  SF2Prim (SFdiv prec emax (Z2SF x) (Z2SF y)).

(** Conversion of an integer to binary64. *)
Definition Z2float (z : Z) : float :=
  SF2Prim (binary_normalize prec emax z 0 false).

(** Python's [x / y] on two [int]s. *)
Definition py_truediv (x y : Z) : result float :=
  if y =? 0 then Raise ZeroDivisionError else Ok (Zdiv2float x y).

(** numpy's [x / y] when an operand is a 64-bit integer scalar: a zero
    divisor gives nan or an infinity (with a warning), not an exception. *)
Definition np_true_divide (x y : Z) : float :=
  if y =? 0 then
    if x =? 0 then nan else if x <? 0 then neg_infinity else infinity
  else Zdiv2float x y.

(** Integer scalars as Python sees them: the builtin [int], or numpy's
    64-bit integer scalar.  The builtin [sum] starts from the [int] 0 and
    returns a numpy scalar as soon as it has added an array element. *)
Inductive pyint : Type :=
| PyInt (z : Z)
| NpInt (z : Z).

Definition int_val (x : pyint) : Z :=
  match x with PyInt z | NpInt z => z end.

Definition is_np (x : pyint) : bool :=
  match x with PyInt _ => false | NpInt _ => true end.

Definition int_op (f : Z -> Z -> Z) (x y : pyint) : pyint :=
  if is_np x || is_np y then NpInt (f (int_val x) (int_val y))
  else PyInt (f (int_val x) (int_val y)).

Definition int_add := int_op Z.add.
Definition int_sub := int_op Z.sub.
Definition int_mul := int_op Z.mul.

Definition int_eqb (x y : pyint) : bool := int_val x =? int_val y.

Definition int_truediv (x y : pyint) : result float :=
  if is_np x || is_np y then Ok (np_true_divide (int_val x) (int_val y))
  else py_truediv (int_val x) (int_val y).

(** The builtin [sum] over a one-dimensional integer array. *)
Definition py_sum (l : list Z) : pyint :=
  fold_left (fun acc v => int_add acc (NpInt v)) l (PyInt 0).

(* ================================================================== *)
(** * Arrays *)

Definition vec := list Z.
Definition matrix := list vec.
Definition fmatrix := list (list float).

(** [a[idx]] *)
Definition getitem {A : Type} (a : list A) (idx : nat) : result A :=
  match nth_error a idx with
  | Some v => Ok v
  | None => Raise IndexError
  end.

(** The indices produced by [enumerate(a)] and by [range(lo, hi)]. *)
Definition enumerate {A : Type} (a : list A) : list nat := seq 0 (length a).
Definition range (lo hi : nat) : list nat := seq lo (hi - lo).

Definition len {A : Type} (a : list A) : Z := Z.of_nat (length a).

(** [np.count_nonzero] *)
Definition count_nonzero (a : vec) : Z :=
  len (filter (fun v => negb (v =? 0)) a).

Fixpoint map2 {A B C : Type} (f : A -> B -> C) (a : list A) (b : list B) : list C :=
  match a, b with
  | x :: a', y :: b' => f x y :: map2 f a' b'
  | _, _ => []
  end.

(** A size in decimal digits, and the shape of a one-dimensional array
    of [n] items as numpy prints it, [(n,)]. *)
Definition nat_str (n : nat) : string :=
  NilEmpty.string_of_uint (Nat.to_uint n).

Definition shape_str (n : nat) : string := ("(" ++ nat_str n ++ ",)")%string.

(** numpy's error for two operands whose shapes do not broadcast: the
    message names the two shapes in the order of the operands, each
    followed by a space. *)
Definition broadcast_shapes_error (shape_a shape_b : string) : exn :=
  ValueError ("operands could not be broadcast together with shapes "
              ++ shape_a ++ " " ++ shape_b ++ " ")%string.

(** The error for two one-dimensional operands of the lengths [n] and
    [m]. *)
Definition broadcast_error (n m : nat) : exn :=
  broadcast_shapes_error (shape_str n) (shape_str m).

(** An elementwise binary operation on two one-dimensional arrays, with
    numpy's broadcasting: equal lengths, or one operand of length 1. *)
Definition broadcast (f : Z -> Z -> Z) (a b : vec) : result vec :=
  if Nat.eqb (length a) (length b) then Ok (map2 f a b)
  else match a, b with
       | [x], _ => Ok (map (f x) b)
       | _, [y] => Ok (map (fun x => f x y) a)
       | _, _ => Raise (broadcast_error (length a) (length b))
       end.

(** [k - a] and [a ** 2] for a scalar [k]. *)
Definition rsub (k : Z) (a : vec) : vec := map (fun v => k - v) a.
Definition square (a : vec) : vec := map (fun v => v ^ 2) a.

(* ================================================================== *)
(** * Bit-vector metrics *)

(** The loop shared by [euc_bit] and [bit_tanimoto]:
<<
    c = 0
    for idx, _ in enumerate(a):
        if a[idx] == b[idx] and a[idx] != 0:
            c += 1
>> *)
Definition intersection_step (a b : vec) (c : Z) (idx : nat) : result Z :=
  ai <- getitem a idx ;;
  bi <- getitem b idx ;;
  if (ai =? bi) && negb (ai =? 0) then Ok (c + 1) else Ok c.

Definition intersection (a b : vec) : result Z :=
  for_each (intersection_step a b) (enumerate a) 0.

(** [euc_dist = (a_feat + b_feat - (2 * c)) ** 0.5], with [pw x] the
    float that [x ** 0.5] evaluates to on the [int] [x]: CPython converts
    [x] to a float and calls the C library's [pow]. *)
Definition euc_bit_with (pw : Z -> float) (a b : vec) : result float :=
  let a_feat := count_nonzero a in
  let b_feat := count_nonzero b in
  c <- intersection a b ;;
  let euc_dist := pw (a_feat + b_feat - 2 * c) in
  Ok euc_dist.

(** [x ** 0.5] read as the correctly rounded square root, as the
    docstring of [euc_bit] reads it.  The C library's power agrees with
    it wherever the root is exact; elsewhere it may be the neighbouring
    float (see [glibc_pow_half]).  (The argument is never negative in
    [euc_bit], see [intersection_bounds].) *)
Definition pow_half (x : Z) : float := PrimFloat.sqrt (Z2float x).

Definition euc_bit (a b : vec) : result float := euc_bit_with pow_half a b.

(** The power as glibc computes it (version 2.36, x86-64) on the
    integers up to 20000: [pow (x, 0.5)] is the correctly rounded square
    root except at the 16 arguments of this table, where it is the
    neighbouring float; at 2921 it is the float just below.  Beyond
    20000 the table is not recorded. *)
Definition glibc_pow_half_table : list (Z * float) :=
  [(2921, 0x1.b05ec632536fap+5%float);
   (3541, 0x1.dc0ce82940f73p+5%float);
   (5579, 0x1.2ac55424ad7c1p+6%float);
   (7827, 0x1.61e19f3d2c071p+6%float);
   (8414, 0x1.6ee953b3f1b04p+6%float);
   (8415, 0x1.6eeee8953be08p+6%float);
   (11271, 0x1.a8a8ecd7080c2p+6%float);
   (11684, 0x1.b05ec632536fap+6%float);
   (12855, 0x1.c585028337d7dp+6%float);
   (13614, 0x1.d2b758163bda6p+6%float);
   (13823, 0x1.d648f711747d4p+6%float);
   (14170, 0x1.dc26b76f11198p+6%float);
   (14317, 0x1.de9d5ada5c18ep+6%float);
   (16049, 0x1.fabd14533889fp+6%float);
   (17745, 0x1.0a6bb44ce37bfp+7%float);
   (19125, 0x1.149619f772bb1p+7%float)].

Definition glibc_pow_half (x : Z) : float :=
  match find (fun e => fst e =? x) glibc_pow_half_table with
  | Some e => snd e
  | None => pow_half x
  end.

(** [coeff = sum(a * b) / (sum(a ** 2) + sum(b ** 2) - sum(a * b))] *)
Definition tanimoto (a b : vec) : result float :=
  ab <- broadcast Z.mul a b ;;
  let num := py_sum ab in
  let den := int_sub (int_add (py_sum (square a)) (py_sum (square b))) (py_sum ab) in
  coeff <- int_truediv num den ;;
  Ok coeff.

(** [bit_tani = c / (a_feat + b_feat - c)] *)
Definition bit_tanimoto (a b : vec) : result float :=
  let a_feat := count_nonzero a in
  let b_feat := count_nonzero b in
  c <- intersection a b ;;
  bit_tani <- py_truediv c (a_feat + b_feat - c) ;;
  Ok bit_tani.

(** [n_11 = sum(a * b)], [n_00 = sum((1 - a) * (1 - b))]; the integers 1
    that [t_1] and [t_0] may hold are multiplied by floats, as 1.0. *)
Definition modified_tanimoto (a b : vec) : result float :=
  let n := PyInt (len a) in
  ab <- broadcast Z.mul a b ;;
  let n_11 := py_sum ab in
  ab0 <- broadcast Z.mul (rsub 1 a) (rsub 1 b) ;;
  let n_00 := py_sum ab0 in
  t_1 <- (if int_eqb n_00 n then Ok 1%float
          else int_truediv n_11 (int_sub n n_00)) ;;
  t_0 <- (if int_eqb n_11 n then Ok 1%float
          else int_truediv n_00 (int_sub n n_11)) ;;
  p <- int_truediv (int_add (int_sub n n_00) n_11) (int_mul (PyInt 2) n) ;;
  let mt := (((2 - p) / 3) * t_1 + ((1 + p) / 3) * t_0)%float in
  Ok mt.

(* ================================================================== *)
(** * The pairwise engine *)

(** A pair metric: a Python function of the two positional parameters
    [a] and [b]. *)
Record pyfunction : Type := {
  fn_name : string;
  fn_call : vec -> vec -> result float
}.

(** An elementwise operation on two sequences with numpy's
    broadcasting along this axis; [err] is the error for operands that
    do not broadcast. *)
Fixpoint zip_with {A : Type} (f : A -> A -> result A) (a b : list A)
  : result (list A) :=
  match a, b with
  | x :: a', y :: b' => v <- f x y ;; r <- zip_with f a' b' ;; Ok (v :: r)
  | _, _ => Ok []
  end.

Definition broadcast_with {A : Type} (err : exn) (f : A -> A -> result A)
  (a b : list A) : result (list A) :=
  if Nat.eqb (length a) (length b) then zip_with f a b
  else match a, b with
       | [x], _ => zip_with f (repeat x (length b)) b
       | _, [y] => zip_with f a (repeat y (length a))
       | _, _ => Raise err
       end.

(** The shape of a two-dimensional array as numpy prints it, [(r,c)]. *)
Definition shape2_str (A : fmatrix) : string :=
  ("(" ++ nat_str (length A) ++ "," ++ nat_str (length (nth 0 A [])) ++ ")")%string.

(** [A + B] on two-dimensional float arrays. *)
Definition mat_add (A B : fmatrix) : result fmatrix :=
  let err := broadcast_shapes_error (shape2_str A) (shape2_str B) in
  broadcast_with err (broadcast_with err (fun x y => Ok (x + y)%float)) A B.

(** [np.identity(n)] *)
Definition identity (n : nat) : fmatrix :=
  map (fun i => map (fun j => if Nat.eqb i j then 1%float else 0%float) (seq 0 n))
      (seq 0 n).

(** Position in the condensed vector of the pair [(i, j)], [i < j < d]:
    the pairs are stored row by row. *)
Definition condensed_index (d i j : nat) : nat :=
  (i * d - (i * (i + 1)) / 2 + (j - i - 1))%nat.

Definition square_entry (v : list float) (d i j : nat) : float :=
  if Nat.eqb i j then 0%float
  else nth (condensed_index d (Nat.min i j) (Nat.max i j)) v 0%float.

(** [scipy.spatial.distance.squareform] on a condensed vector: the
    empty vector gives the 1 x 1 zero matrix; a vector of [d (d - 1) / 2]
    entries gives the [d] x [d] matrix with a zero diagonal that holds
    entry [k] at [(i, j)] and at [(j, i)]; any other length is refused. *)
Definition squareform (v : list float) : result fmatrix :=
  let s := length v in
  if Nat.eqb s 0 then Ok [[0%float]]
  else
    let d := Nat.sqrt_up (s * 2) in
    if negb (Nat.eqb (d * (d - 1)) (s * 2)) then
      Raise (ValueError "Incompatible vector size."%string)
    else
      Ok (map (fun i => map (fun j => square_entry v d i j) (seq 0 d)) (seq 0 d)).

(** [pair_simi.append(metric(feature[i], feature[j]))], and the two
    nested loops around it. *)
Definition pair_row (feature : matrix) (metric : vec -> vec -> result float)
  (i : nat) (pair_simi : list float) (j : nat) : result (list float) :=
  fi <- getitem feature i ;;
  fj <- getitem feature j ;;
  v <- metric fi fj ;;
  Ok (pair_simi ++ [v]).

Definition pairs (feature : matrix) (metric : vec -> vec -> result float)
  : result (list float) :=
  let size := length feature in
  for_each
    (fun pair_simi i =>
       for_each (pair_row feature metric i) (range (i + 1) size) pair_simi)
    (range 0 size) [].

Definition pairwise_similarity_bit (feature : matrix)
  (metric : vec -> vec -> result float) : result fmatrix :=
  let size := length feature in
  pair_simi <- pairs feature metric ;;
  sq <- squareform pair_simi ;;
  pair_coeff <- mat_add sq (identity size) ;;
  Ok pair_coeff.

(* ================================================================== *)
(** * The dispatcher *)

Definition dict_getitem {V : Type} (d : list (string * V)) (key : string)
  : result V :=
  match find (fun kv => String.eqb (fst kv) key) d with
  | Some kv => Ok (snd kv)
  | None => Raise (KeyError key)
  end.

(** [f(features)]: a call that passes one positional argument to a
    function of the two parameters [a] and [b].  Python binds the
    arguments before it runs the body, finds no value for [b] and raises
    [TypeError]. *)
Definition call_with_one_argument (f : pyfunction) (features : matrix)
  : result fmatrix :=
  Raise (TypeError (fn_name f ++ "() missing 1 required positional argument: 'b'")%string).

Definition built_in_metrics : list string :=
  ["tanimoto"; "modified_tanimoto"]%string.

Definition function_dict : list (string * pyfunction) :=
  [("tanimoto", {| fn_name := "tanimoto"; fn_call := tanimoto |});
   ("modified_tanimoto",
    {| fn_name := "modified_tanimoto"; fn_call := modified_tanimoto |})]%string.

Definition str_in (s : string) (l : list string) : bool :=
  existsb (String.eqb s) l.

Section Dispatcher.

(** [DiverseSelector.utils.sklearn_supported_metrics], the metric names
    of the general-purpose backend, and the backend itself,
    [sklearn.metrics.pairwise_distances]. *)
Variable sklearn_supported_metrics : list string.
Variable pairwise_distances : matrix -> string -> Z -> bool -> result fmatrix.

(** The keyword arguments that the source forwards to the backend are
    part of the parameter [pairwise_distances]. *)
Definition compute_distance_matrix (features : matrix) (metric : string)
  (n_jobs : Z) (force_all_finite : bool) : result fmatrix :=
  if str_in metric sklearn_supported_metrics then
    pairwise_distances features metric n_jobs force_all_finite
  else if str_in metric built_in_metrics then
    f <- dict_getitem function_dict metric ;;
    call_with_one_argument f features
  else
    Raise (ValueError ("Metric " ++ metric ++ " is not supported by the library.")%string).

End Dispatcher.

(* ================================================================== *)
(** * The neighbour aggregator *)

(** The variables [short], [a] and [b] of the search loop. *)
Record search : Type := {
  short : float;
  nearest_a : nat;
  nearest_b : nat
}.

(** One turn of the inner loop:
<<
    if euc_bit(x[idx], x[jdx]) < short and idx != jdx:
        short = euc_bit(x[idx], x[jdx]); a = idx; b = jdx
>> *)
Definition search_step (x : matrix) (idx : nat) (st : search) (jdx : nat)
  : result search :=
  xi <- getitem x idx ;;
  xj <- getitem x jdx ;;
  d <- euc_bit xi xj ;;
  if (d <? short st)%float && negb (Nat.eqb idx jdx) then
    d' <- euc_bit xi xj ;;
    Ok {| short := d'; nearest_a := idx; nearest_b := jdx |}
  else Ok st.

(** [short = 100], [a = 0], [b = 0] *)
Definition search_init : search :=
  {| short := 100; nearest_a := 0; nearest_b := 0 |}.

Definition search_nearest (x : matrix) (idx : nat) : result search :=
  for_each (search_step x idx) (enumerate x) search_init.

(** What one turn of the outer loop appends to [tani]. *)
Definition shortest_tanimoto (x : matrix) (idx : nat) : result float :=
  st <- search_nearest x idx ;;
  xa <- getitem x (nearest_a st) ;;
  xb <- getitem x (nearest_b st) ;;
  bit_tanimoto xa xb.

(** numpy's sum of a contiguous array of floats ([add.reduce], the
    routine [pairwise_sum]).  Fewer than 8 items are added from left to
    right, starting from 0.  Up to 128 items are added into 8
    accumulators, [r[j]] taking the items [j], [j + 8], [j + 16], ... of
    the full blocks of 8; the accumulators are combined as
    [((r0 + r1) + (r2 + r3)) + ((r4 + r5) + (r6 + r7))] and the items
    after the last full block are added one by one.  A longer array is
    cut at [n2 = n / 2 - (n / 2) % 8] and the sums of the two parts are
    added. *)
Definition sum8 (r : list float) : float :=
  match r with
  | [r0; r1; r2; r3; r4; r5; r6; r7] =>
      (((r0 + r1) + (r2 + r3)) + ((r4 + r5) + (r6 + r7)))%float
  | _ => 0%float
  end.

(** [r[j] += a[i + j]] for [j] from 0 to 7, over [blocks] blocks of 8
    items of [a]. *)
Fixpoint add_blocks (blocks : nat) (r a : list float) : list float :=
  match blocks with
  | O => r
  | S k => add_blocks k (map2 PrimFloat.add r (firstn 8 a)) (skipn 8 a)
  end.

(** [fuel] bounds the depth of the recursion; the length of the array
    is enough ([pairwise_sum_fuel]). *)
Fixpoint pairwise_sum (fuel : nat) (a : list float) : float :=
  let n := length a in
  if (n <? 8)%nat then fold_left PrimFloat.add a 0%float
  else if (n <=? 128)%nat then
    let r := add_blocks (n / 8 - 1) (firstn 8 a) (skipn 8 a) in
    fold_left PrimFloat.add (skipn (n - n mod 8) a) (sum8 r)
  else
    match fuel with
    | O => 0%float
    | S fuel' =>
        let n2 := (n / 2 - (n / 2) mod 8)%nat in
        (pairwise_sum fuel' (firstn n2 a) + pairwise_sum fuel' (skipn n2 a))%float
    end.

(** [np.add.reduce]: the result starts from the identity 0 of the
    addition and the whole array is added to it in one call. *)
Definition np_sum (l : list float) : float :=
  (0 + pairwise_sum (length l) l)%float.

(** [np.average] of a list of floats: [mean], the sum over the number of
    items. *)
Definition np_average (l : list float) : float :=
  (np_sum l / Z2float (len l))%float.

(** The outer loop, which builds the list [tani]. *)
Definition tani_loop (x : matrix) : result (list float) :=
  for_each
    (fun tani idx => t <- shortest_tanimoto x idx ;; Ok (tani ++ [t]))
    (enumerate x) [].

Definition nearest_average_tanimoto (x : matrix) : result float :=
  tani <- tani_loop x ;;
  let nat_ := np_average tani in
  Ok nat_.

(* ================================================================== *)
(** * Specification-level definitions *)

(** The number of positions at which [a] and [b] agree on a nonzero
    value. *)
Definition agree_nonzero (a b : vec) : Z :=
  len (filter (fun xy => (fst xy =? snd xy) && negb (fst xy =? 0)) (combine a b)).

(** The dot product of two vectors. *)
Definition dot (a b : vec) : Z :=
  fold_right Z.add 0 (map2 Z.mul a b).

(** The mantissa of a positive integer below 2^53, shifted to the 53
    digits of a normal binary64 number. *)
Definition norm_mantissa (p : positive) : positive :=
  match (53 - Z.pos (digits2_pos p))%Z with
  | Z.pos k => Pos.iter xO p k
  | _ => p
  end.

(** The binary64 float of an integer of magnitude below 2^53. *)
Definition Z2SF_norm (z : Z) : spec_float :=
  match z with
  | Z0 => S754_zero false
  | Zpos m => S754_finite false (norm_mantissa m) (Z.pos (digits2_pos m) - 53)
  | Zneg m => S754_finite true (norm_mantissa m) (Z.pos (digits2_pos m) - 53)
  end.

(** A vector with a nonzero entry. *)
Definition nonzero (a : vec) : Prop := Exists (fun v => v <> 0) a.

(** The formula of the specification, on the vector length [n], the
    number [n_11] of 1-1 agreements and the number [n_00] of 0-0
    agreements. *)
Definition mt_formula (n n_11 n_00 : Z) : float :=
  let t_1 := if n_00 =? n then 1%float else Zdiv2float n_11 (n - n_00) in
  let t_0 := if n_11 =? n then 1%float else Zdiv2float n_00 (n - n_11) in
  let p := Zdiv2float ((n - n_00) + n_11) (2 * n) in
  (((2 - p) / 3) * t_1 + ((1 + p) / 3) * t_0)%float.

(** [triangle i = 0 + 1 + ... + i] *)
Fixpoint triangle (i : nat) : nat :=
  match i with
  | O => O
  | S i' => (triangle i' + S i')%nat
  end.

(** [M[i][j]] *)
Definition entry (M : fmatrix) (i j : nat) : float :=
  nth j (nth i M []) 0%float.

(** The [n] x [n] array with [f i j] at [(i, j)]. *)
Definition table (n : nat) (f : nat -> nat -> float) : fmatrix :=
  map (fun i => map (fun j => f i j) (seq 0 n)) (seq 0 n).

(** The state of the search of row [idx] after the rows before [k],
    with [dist j] the distance from row [idx] to row [j]: no row seen so
    far is strictly nearer than [short]; and either nothing was found, or
    [b] is the first row seen at the distance [short], which is below
    100. *)
Definition searched (dist : nat -> float) (idx k : nat) (st : search) : Prop :=
  (forall j, (j < k)%nat -> j <> idx -> (dist j <? short st)%float = false)
  /\ (st = search_init
      \/ exists b, (b < k)%nat /\ b <> idx
           /\ st = {| short := dist b; nearest_a := idx; nearest_b := b |}
           /\ (dist b <? 100)%float = true
           /\ forall j, (j < b)%nat -> j <> idx -> dist j <> dist b).

(** Two rows of 10000 bits that differ everywhere: their [euc_bit]
    distance is exactly 100. *)
Definition all_ones : vec := repeat 1 (100 * 100)%nat.
Definition all_zeros : vec := repeat 0 (100 * 100)%nat.
Definition far_rows : matrix := [all_ones; all_zeros].

(** A bit vector: every entry is 0 or 1. *)
Definition binary (a : vec) : Prop := Forall (fun v => v = 0 \/ v = 1) a.

(** A vector without a nonzero entry. *)
Definition all_zero (a : vec) : Prop := Forall (fun v => v = 0) a.

(** The squared Euclidean distance of two vectors. *)
Definition sq_dist (a b : vec) : Z :=
  fold_right Z.add 0 (map2 (fun x y => (x - y) ^ 2) a b).

(** The distance from row [i] to row [j] of a feature matrix. *)
Definition row_dist (x : matrix) (i j : nat) : float :=
  PrimFloat.sqrt
    (Z2float (count_nonzero (nth i x []) + count_nonzero (nth j x [])
              - 2 * agree_nonzero (nth i x []) (nth j x []))).

(** The row that the search of [nearest_average_tanimoto] pairs with
    row [i]. *)
Definition nearest (x : matrix) (i : nat) : nat :=
  match search_nearest x i with
  | Ok st => nearest_b st
  | Raise _ => 0%nat
  end.

(* ================================================================== *)
(** * Loops *)

Lemma for_each_ext {S I : Type} (f g : S -> I -> result S) (l : list I) :
  (forall s i, In i l -> f s i = g s i) ->
  forall s, for_each f l s = for_each g l s.
Proof.
  induction l as [|i l IH]; intros E s; simpl; [reflexivity|].
  rewrite (E s i) by (left; reflexivity).
  destruct (g s i); simpl; [|reflexivity].
  apply IH. intros s' j Hj. apply E. right; exact Hj.
Qed.

Lemma for_each_map {S I J : Type} (f : S -> J -> result S) (h : I -> J)
  (l : list I) (s : S) :
  for_each f (map h l) s = for_each (fun s i => f s (h i)) l s.
Proof.
  revert s; induction l as [|i l IH]; intros s; simpl; [reflexivity|].
  destruct (f s (h i)); simpl; [apply IH | reflexivity].
Qed.

Lemma for_each_app {S I : Type} (f : S -> I -> result S) (l1 l2 : list I) (s : S) :
  for_each f (l1 ++ l2) s = (s' <- for_each f l1 s ;; for_each f l2 s').
Proof.
  revert s; induction l1 as [|i l1 IH]; intros s; simpl; [reflexivity|].
  destruct (f s i); simpl; [apply IH | reflexivity].
Qed.

(** A loop over [enumerate (x :: a)] is the first turn followed by the
    loop over [enumerate a] with the indices shifted. *)
Lemma for_each_enumerate_cons {S A : Type} (f : S -> nat -> result S)
  (x : A) (a : list A) (s : S) :
  for_each f (enumerate (x :: a)) s
  = (s' <- f s 0%nat ;; for_each (fun s i => f s (Datatypes.S i)) (enumerate a) s').
Proof.
  unfold enumerate. simpl length. rewrite <- cons_seq, <- seq_shift. simpl.
  destruct (f s 0%nat); simpl; [apply for_each_map | reflexivity].
Qed.

(* ================================================================== *)
(** * The intersection count *)

Lemma intersection_step_cons (x y : Z) (a b : vec) (c : Z) (idx : nat) :
  intersection_step (x :: a) (y :: b) c (S idx) = intersection_step a b c idx.
Proof. reflexivity. Qed.

Lemma intersection_loop (a : vec) :
  forall (b : vec) (c : Z),
    (length a <= length b)%nat ->
    for_each (intersection_step a b) (enumerate a) c = Ok (c + agree_nonzero a b).
Proof.
  induction a as [|x a IH]; intros b c Hlen.
  - simpl. unfold agree_nonzero, len. simpl. f_equal. lia.
  - destruct b as [|y b]; [simpl in Hlen; lia|].
    rewrite for_each_enumerate_cons.
    unfold intersection_step at 1. simpl getitem. simpl bind.
    assert (Hle : (length a <= length b)%nat) by (simpl in Hlen; lia).
    unfold agree_nonzero. simpl combine. simpl filter. simpl fst. simpl snd.
    destruct ((x =? y) && negb (x =? 0)); simpl bind;
      rewrite (for_each_ext _ (intersection_step a b))
        by (intros; apply intersection_step_cons);
      rewrite IH by exact Hle; unfold agree_nonzero, len; simpl length;
      f_equal; lia.
Qed.

Lemma intersection_short (a : vec) :
  forall (b : vec) (c : Z),
    (length b < length a)%nat ->
    for_each (intersection_step a b) (enumerate a) c = Raise IndexError.
Proof.
  induction a as [|x a IH]; intros b c Hlen; [simpl in Hlen; lia|].
  rewrite for_each_enumerate_cons.
  destruct b as [|y b]; [reflexivity|].
  unfold intersection_step at 1. simpl getitem. simpl bind.
  assert (Hlt : (length b < length a)%nat) by (simpl in Hlen; lia).
  destruct ((x =? y) && negb (x =? 0)); simpl bind;
    rewrite (for_each_ext _ (intersection_step a b))
      by (intros; apply intersection_step_cons);
    apply IH; exact Hlt.
Qed.

Lemma intersection_eq (a b : vec) :
  (length a <= length b)%nat -> intersection a b = Ok (agree_nonzero a b).
Proof.
  intros H. unfold intersection. rewrite intersection_loop by exact H.
  reflexivity.
Qed.

Lemma intersection_raises (a b : vec) :
  (length b < length a)%nat -> intersection a b = Raise IndexError.
Proof. intros H. apply intersection_short; exact H. Qed.

(** The count is bounded by the nonzero counts of both vectors, so the
    argument of the square root in [euc_bit] is never negative. *)
Lemma agree_nonzero_bounds (a : vec) :
  forall b : vec,
    0 <= agree_nonzero a b <= count_nonzero a
    /\ agree_nonzero a b <= count_nonzero b.
Proof.
  unfold agree_nonzero, count_nonzero, len.
  induction a as [|x a IH]; intros b; [simpl; lia|].
  destruct b as [|y b]; [simpl; lia|].
  specialize (IH b). simpl combine. simpl filter. simpl fst. simpl snd.
  destruct (Z.eqb_spec x y) as [->|Hxy]; destruct (Z.eqb_spec y 0) as [->|Hy];
    try destruct (Z.eqb_spec x 0); simpl; lia.
Qed.

Lemma intersection_bounds (a b : vec) (c : Z) :
  intersection a b = Ok c -> 0 <= count_nonzero a + count_nonzero b - 2 * c.
Proof.
  intros H. destruct (Nat.le_gt_cases (length a) (length b)) as [Hle|Hgt].
  - rewrite intersection_eq in H by exact Hle. injection H as <-.
    pose proof (agree_nonzero_bounds a b). lia.
  - rewrite intersection_raises in H by exact Hgt. discriminate.
Qed.

(* ================================================================== *)
(** * Division *)

(** A finite nonzero float divided by itself is exactly 1, whatever its
    mantissa: the quotient of the mantissas is a power of two and the
    remainder is zero, so nothing is rounded. *)
Lemma SFdiv_same (s : bool) (m : positive) (e : Z) :
  SFdiv prec emax (S754_finite s m e) (S754_finite s m e)
  = S754_finite false 4503599627370496 (-52).
Proof.
  unfold SFdiv, SFdiv_core_binary.
  rewrite !Z.sub_diag.
  change (Z.min (fexp prec emax 0) 0) with (-53).
  change (0 - -53) with 53.
  cbv iota beta.
  rewrite Z.shiftl_mul_pow2 by lia.
  assert (Hdiv : Z.div_eucl (Z.pos m * 2 ^ 53) (Z.pos m) = (2 ^ 53, 0)).
  { pose proof (Z.div_eucl_eq (Z.pos m * 2 ^ 53) (Z.pos m)) as Heq.
    pose proof (Z.mod_pos_bound (Z.pos m * 2 ^ 53) (Z.pos m)) as Hb.
    unfold Z.modulo in Hb.
    destruct (Z.div_eucl (Z.pos m * 2 ^ 53) (Z.pos m)) as [q r].
    specialize (Heq ltac:(lia)). specialize (Hb ltac:(lia)).
    assert (q = 2 ^ 53) by nia. subst q.
    f_equal. lia. }
  rewrite Hdiv.
  assert (Hloc : new_location (Z.pos m) 0 = loc_Exact).
  { unfold new_location. destruct (Z.even (Z.pos m)); reflexivity. }
  rewrite Hloc, xorb_nilpotent.
  reflexivity.
Qed.

Lemma Zdiv2float_same (x : Z) : x <> 0 -> Zdiv2float x x = 1%float.
Proof.
  intros Hx. unfold Zdiv2float.
  destruct x as [|m|m]; [congruence| |]; simpl Z2SF;
    rewrite SFdiv_same; reflexivity.
Qed.

Lemma py_truediv_same (x : Z) : x <> 0 -> py_truediv x x = Ok 1%float.
Proof.
  intros Hx. unfold py_truediv.
  destruct (Z.eqb_spec x 0); [contradiction|].
  rewrite Zdiv2float_same by exact Hx. reflexivity.
Qed.

Lemma np_true_divide_same (x : Z) : x <> 0 -> np_true_divide x x = 1%float.
Proof.
  intros Hx. unfold np_true_divide.
  destruct (Z.eqb_spec x 0); [contradiction|].
  apply Zdiv2float_same; exact Hx.
Qed.

(** ** Agreement with the IEEE division

    numpy divides two 64-bit integer scalars by converting both to
    binary64 and dividing there.  For integers of magnitude below 2^53
    the conversion is exact and that quotient is the one [np_true_divide]
    computes. *)

Lemma digits2_pos_iter_xO (p k : positive) :
  digits2_pos (Pos.iter xO p k) = (digits2_pos p + k)%positive.
Proof.
  induction k as [|k IH] using Pos.peano_ind.
  - simpl. lia.
  - rewrite Pos.iter_succ. simpl. rewrite IH. lia.
Qed.

Lemma Zpos_iter_xO (p k : positive) :
  Z.pos (Pos.iter xO p k) = Z.pos p * 2 ^ Z.pos k.
Proof.
  induction k as [|k IH] using Pos.peano_ind.
  - simpl. lia.
  - rewrite Pos.iter_succ, Pos2Z.inj_xO, IH, Pos2Z.inj_succ, Z.pow_succ_r by lia. lia.
Qed.

Lemma digits2_pos_bound (p : positive) :
  forall n, 0 <= n -> Z.pos p < 2 ^ n -> Z.pos (digits2_pos p) <= n.
Proof.
  induction p as [p IH|p IH|]; intros n Hn Hp.
  - assert (n <> 0) by (intros ->; simpl in Hp; lia).
    replace n with (Z.succ (n - 1)) in Hp by lia.
    rewrite Z.pow_succ_r in Hp by lia.
    specialize (IH (n - 1) ltac:(lia) ltac:(lia)). simpl. lia.
  - assert (n <> 0) by (intros ->; simpl in Hp; lia).
    replace n with (Z.succ (n - 1)) in Hp by lia.
    rewrite Z.pow_succ_r in Hp by lia.
    specialize (IH (n - 1) ltac:(lia) ltac:(lia)). simpl. lia.
  - assert (n <> 0) by (intros ->; simpl in Hp; lia). simpl. lia.
Qed.

Lemma binary_round_small (s : bool) (p : positive) :
  Z.pos (digits2_pos p) <= 53 ->
  binary_round prec emax s p 0
  = S754_finite s (norm_mantissa p) (Z.pos (digits2_pos p) - 53).
Proof.
  intros Hd. unfold binary_round, shl_align, norm_mantissa.
  assert (Hf : forall e, -1000 <= e <= 1000 -> fexp prec emax e = e - 53).
  { intros e He. unfold fexp, SpecFloat.emin, prec, emax. lia. }
  rewrite Z.add_0_r, Hf by lia. rewrite Z.sub_0_r.
  set (d := Z.pos (digits2_pos p)) in *.
  assert (Hd1 : 1 <= d) by (subst d; lia).
  destruct (d - 53) as [|k|k] eqn:Ek; try lia.
  - replace (53 - d) with 0 by lia.
    unfold binary_round_aux, shr_fexp. cbn [Zdigits2 shr_record_of_loc].
    fold d. rewrite Hf by lia. replace (d + 0 - 53 - 0) with 0 by lia.
    cbn [shr shr_m loc_of_shr_record round_nearest_even Zdigits2].
    fold d. rewrite Hf by lia. replace (d + 0 - 53 - 0) with 0 by lia.
    cbn [shr shr_m]. reflexivity.
  - replace (53 - d) with (Z.pos k) by lia.
    unfold binary_round_aux, shr_fexp. cbn [Zdigits2 shr_record_of_loc].
    rewrite digits2_pos_iter_xO. rewrite Pos2Z.inj_add. fold d.
    rewrite Hf by lia. replace (d + Z.pos k + Z.neg k - 53 - Z.neg k) with 0 by lia.
    cbn [shr shr_m loc_of_shr_record round_nearest_even Zdigits2].
    rewrite digits2_pos_iter_xO. rewrite Pos2Z.inj_add. fold d.
    rewrite Hf by lia. replace (d + Z.pos k + Z.neg k - 53 - Z.neg k) with 0 by lia.
    cbn [shr shr_m]. reflexivity.
Qed.

Lemma norm_mantissa_digits (p : positive) :
  Z.pos (digits2_pos p) <= 53 ->
  Z.pos (digits2_pos (norm_mantissa p)) = 53.
Proof.
  intros Hd. unfold norm_mantissa.
  destruct (53 - Z.pos (digits2_pos p)) as [|k|k] eqn:Ek; try lia.
  rewrite digits2_pos_iter_xO. lia.
Qed.

Lemma norm_mantissa_value (p : positive) :
  Z.pos (digits2_pos p) <= 53 ->
  Z.pos (norm_mantissa p) = Z.pos p * 2 ^ (53 - Z.pos (digits2_pos p)).
Proof.
  intros Hd. unfold norm_mantissa.
  destruct (53 - Z.pos (digits2_pos p)) as [|k|k] eqn:Ek; try lia.
  apply Zpos_iter_xO.
Qed.

Lemma norm_valid (s : bool) (p : positive) :
  Z.pos (digits2_pos p) <= 53 ->
  valid_binary (S754_finite s (norm_mantissa p) (Z.pos (digits2_pos p) - 53)) = true.
Proof.
  intros Hd. unfold valid_binary, SpecFloat.valid_binary, bounded, canonical_mantissa.
  rewrite norm_mantissa_digits by exact Hd.
  unfold fexp, SpecFloat.emin, prec, emax.
  apply andb_true_intro. split; [apply Z.eqb_eq | apply Z.leb_le]; lia.
Qed.

(** New location of a remainder when divisor and remainder are scaled by
    the same power of two. *)
Lemma new_location_scale (q r k : Z) :
  0 < q -> 0 <= r < q -> 0 <= k ->
  new_location (q * 2 ^ k) (r * 2 ^ k) = new_location q r.
Proof.
  intros Hq Hr Hk.
  destruct (Z.eq_dec k 0) as [->|Hk0]; [rewrite !Z.mul_1_r; reflexivity|].
  assert (HK : 2 ^ k = 2 * 2 ^ (k - 1)).
  { rewrite <- Z.pow_succ_r by lia. f_equal. lia. }
  assert (HKpos : 0 < 2 ^ (k - 1)) by (apply Z.pow_pos_nonneg; lia).
  unfold new_location.
  replace (Z.even (q * 2 ^ k)) with true
    by (rewrite HK, Z.even_mul, Z.even_mul; simpl; rewrite orb_true_r; reflexivity).
  destruct (Z.even q) eqn:Eq; unfold new_location_even, new_location_odd.
  - destruct (Z.eqb_spec r 0) as [->|Hr0]; [reflexivity|].
    destruct (Z.eqb_spec (r * 2 ^ k) 0) as [E|_]; [nia|].
    replace (2 * (r * 2 ^ k)) with (2 * r * 2 ^ k) by ring.
    rewrite <- (Zmult_compare_compat_r (2 * r) q (2 ^ k)) by lia.
    reflexivity.
  - destruct (Z.eqb_spec r 0) as [->|Hr0]; [reflexivity|].
    destruct (Z.eqb_spec (r * 2 ^ k) 0) as [E|_]; [nia|].
    replace (2 * (r * 2 ^ k)) with (2 * r * 2 ^ k) by ring.
    rewrite <- (Zmult_compare_compat_r (2 * r) q (2 ^ k)) by lia.
    f_equal.
    rewrite <- Z.negb_odd in Eq. apply negb_false_iff in Eq.
    apply Z.odd_spec in Eq. destruct Eq as [h Hh].
    destruct (Z.compare_spec (2 * r) q); destruct (Z.compare_spec (2 * r + 1) q);
      try reflexivity; lia.
Qed.

Lemma SFdiv_core_norm (p q : positive) :
  Z.pos (digits2_pos p) <= 53 -> Z.pos (digits2_pos q) <= 53 ->
  SFdiv_core_binary prec emax (Z.pos (norm_mantissa p)) (Z.pos (digits2_pos p) - 53)
    (Z.pos (norm_mantissa q)) (Z.pos (digits2_pos q) - 53)
  = SFdiv_core_binary prec emax (Z.pos p) 0 (Z.pos q) 0.
Proof.
  intros Hp Hq. unfold SFdiv_core_binary. cbn [Zdigits2].
  rewrite !norm_mantissa_digits by assumption.
  rewrite !norm_mantissa_value by assumption.
  set (d1 := Z.pos (digits2_pos p)) in *. set (d2 := Z.pos (digits2_pos q)) in *.
  assert (Hd1 : 1 <= d1) by (subst d1; lia).
  assert (Hd2 : 1 <= d2) by (subst d2; lia).
  assert (Hf : forall e, -1000 <= e <= 1000 -> fexp prec emax e = e - 53).
  { intros e He. unfold fexp, SpecFloat.emin, prec, emax. lia. }
  rewrite !Hf by lia.
  replace (Z.min (53 + (d1 - 53) - (53 + (d2 - 53)) - 53) (d1 - 53 - (d2 - 53)))
    with (d1 - d2 - 53) by lia.
  replace (Z.min (d1 + 0 - (d2 + 0) - 53) (0 - 0)) with (d1 - d2 - 53) by lia.
  replace (d1 - 53 - (d2 - 53) - (d1 - d2 - 53)) with 53 by lia.
  destruct (0 - 0 - (d1 - d2 - 53)) as [|s|s] eqn:Es; try lia.
  rewrite !Z.shiftl_mul_pow2 by lia.
  replace (Z.pos p * 2 ^ (53 - d1) * 2 ^ 53)
    with (Z.pos p * 2 ^ Z.pos s * 2 ^ (53 - d2)).
  2:{ rewrite <- !Z.mul_assoc, <- !Z.pow_add_r by lia. do 2 f_equal. lia. }
  set (N := Z.pos p * 2 ^ Z.pos s). set (K := 2 ^ (53 - d2)).
  assert (HK : 0 < K) by (apply Z.pow_pos_nonneg; lia).
  pose proof (Z.div_eucl_eq N (Z.pos q) ltac:(lia)) as HN.
  pose proof (Z.mod_pos_bound N (Z.pos q) ltac:(lia)) as HNb.
  pose proof (Z.div_eucl_eq (N * K) (Z.pos q * K) ltac:(lia)) as HM.
  pose proof (Z.mod_pos_bound (N * K) (Z.pos q * K) ltac:(lia)) as HMb.
  unfold Z.modulo in HNb, HMb.
  destruct (Z.div_eucl N (Z.pos q)) as [a r].
  destruct (Z.div_eucl (N * K) (Z.pos q * K)) as [a' r'].
  assert (a' = a /\ r' = r * K) as [-> ->].
  { assert (Heq : Z.pos q * K * a' + r' = Z.pos q * K * a + r * K) by nia.
    assert (a' = a) by nia. subst a'. split; [reflexivity | nia]. }
  subst K. rewrite new_location_scale by lia. reflexivity.
Qed.

Lemma Prim2SF_Z2float (z : Z) :
  Z.abs z < 2 ^ 53 -> Prim2SF (Z2float z) = Z2SF_norm z.
Proof.
  intros Hz. unfold Z2float, binary_normalize.
  destruct z as [|m|m]; [reflexivity| |];
    assert (Hd : Z.pos (digits2_pos m) <= 53)
      by (apply digits2_pos_bound; [lia | exact Hz]);
    rewrite binary_round_small by exact Hd;
    apply Prim2SF_SF2Prim; apply norm_valid; exact Hd.
Qed.

Lemma SFdiv_norm (x y : Z) :
  Z.abs x < 2 ^ 53 -> Z.abs y < 2 ^ 53 ->
  SFdiv prec emax (Z2SF_norm x) (Z2SF_norm y) = SFdiv prec emax (Z2SF x) (Z2SF y).
Proof.
  intros Hx Hy.
  destruct x as [|p|p]; destruct y as [|q|q]; try reflexivity;
    cbn [Z2SF_norm Z2SF SFdiv];
    rewrite SFdiv_core_norm
      by (apply digits2_pos_bound; [lia | assumption]);
    reflexivity.
Qed.

(** On integers of magnitude below 2^53, which binary64 holds exactly,
    [np_true_divide] is the IEEE division of the converted operands. *)
Theorem np_true_divide_ieee (x y : Z) :
  Z.abs x < 2 ^ 53 -> Z.abs y < 2 ^ 53 ->
  np_true_divide x y = (Z2float x / Z2float y)%float.
Proof.
  intros Hx Hy.
  rewrite <- (SF2Prim_Prim2SF (Z2float x / Z2float y)).
  rewrite div_spec, !Prim2SF_Z2float by assumption.
  unfold SF64div. rewrite SFdiv_norm by assumption.
  unfold np_true_divide, Zdiv2float.
  destruct (Z.eqb_spec y 0) as [->|Hy0]; [|reflexivity].
  destruct x as [|p|p]; reflexivity.
Qed.

Example np_true_divide_third :
  np_true_divide 1 3 = (1 / 3)%float /\ np_true_divide 2 3 = (2 / 3)%float.
Proof. split; reflexivity. Qed.

(* ================================================================== *)
(** * euc_bit and bit_tanimoto *)

Lemma bind_ret {A : Type} (m : result A) : (v <- m ;; Ok v) = m.
Proof. destruct m; reflexivity. Qed.

Lemma binary_intro (a : vec) :
  forallb (fun v => (v =? 0) || (v =? 1)) a = true -> binary a.
Proof.
  unfold binary. intros H. apply Forall_forall. intros v Hv.
  rewrite forallb_forall in H. specialize (H v Hv).
  apply orb_true_iff in H. destruct H as [H|H]; apply Z.eqb_eq in H; auto.
Qed.

Lemma euc_bit_with_eq (pw : Z -> float) (a b : vec) :
  (length a <= length b)%nat ->
  euc_bit_with pw a b
  = Ok (pw (count_nonzero a + count_nonzero b - 2 * agree_nonzero a b)).
Proof.
  intros H. unfold euc_bit_with. rewrite intersection_eq by exact H.
  reflexivity.
Qed.

Lemma euc_bit_eq (a b : vec) :
  (length a <= length b)%nat ->
  euc_bit a b
  = Ok (PrimFloat.sqrt
          (Z2float (count_nonzero a + count_nonzero b - 2 * agree_nonzero a b))).
Proof. intros H. unfold euc_bit. rewrite euc_bit_with_eq by exact H. reflexivity. Qed.

Lemma bit_tanimoto_eq (a b : vec) :
  (length a <= length b)%nat ->
  bit_tanimoto a b
  = py_truediv (agree_nonzero a b)
      (count_nonzero a + count_nonzero b - agree_nonzero a b).
Proof.
  intros H. unfold bit_tanimoto. rewrite intersection_eq by exact H.
  simpl bind. apply bind_ret.
Qed.



(** The entries of the table are one unit in the last place from the
    square root. *)
Example glibc_pow_half_one_ulp :
  forallb (fun e => (snd e =? next_down (pow_half (fst e)))%float
                    || (snd e =? next_up (pow_half (fst e)))%float)
    glibc_pow_half_table = true
  /\ glibc_pow_half 2921 = next_down (pow_half 2921)
  /\ glibc_pow_half 10000 = 100%float
  /\ glibc_pow_half 1 = 1%float
  /\ glibc_pow_half 0 = 0%float.
Proof. repeat split; vm_compute; reflexivity. Qed.


(* ================================================================== *)
(** * Self-similarity *)

Lemma agree_nonzero_self (a : vec) : agree_nonzero a a = count_nonzero a.
Proof.
  unfold agree_nonzero, count_nonzero, len. f_equal. f_equal.
  induction a as [|x a IH]; [reflexivity|].
  simpl. rewrite Z.eqb_refl. simpl.
  destruct (negb (x =? 0)); simpl; rewrite IH; reflexivity.
Qed.

Lemma count_nonzero_pos (a : vec) : nonzero a -> 0 < count_nonzero a.
Proof.
  unfold count_nonzero, len.
  induction 1 as [x a Hx | x a _ IH]; simpl.
  - destruct (Z.eqb_spec x 0); [contradiction|]. simpl. lia.
  - destruct (negb (x =? 0)); simpl; lia.
Qed.

Lemma py_sum_acc (l : list Z) :
  forall acc : pyint,
    fold_left (fun acc v => int_add acc (NpInt v)) l acc
    = match l with
      | [] => acc
      | _ :: _ => NpInt (int_val acc + fold_right Z.add 0 l)
      end.
Proof.
  induction l as [|x l IH]; intros acc; [reflexivity|].
  simpl fold_left. rewrite IH.
  destruct l as [|y l].
  - unfold int_add, int_op. simpl. rewrite orb_true_r. f_equal. lia.
  - f_equal. unfold int_add, int_op. rewrite orb_true_r. simpl. lia.
Qed.

(** The builtin [sum] of a nonempty array is a numpy scalar; of the
    empty array, the [int] 0. *)
Lemma py_sum_eq (l : list Z) :
  py_sum l = match l with
             | [] => PyInt 0
             | _ :: _ => NpInt (fold_right Z.add 0 l)
             end.
Proof. unfold py_sum. rewrite py_sum_acc. destruct l; reflexivity. Qed.

Lemma map2_mul_self (a : vec) : map2 Z.mul a a = square a.
Proof.
  induction a as [|x a IH]; [reflexivity|].
  cbn [map2 square map]. fold (square a). rewrite IH, Z.pow_2_r. reflexivity.
Qed.

Lemma sum_square_pos (a : vec) : nonzero a -> 0 < fold_right Z.add 0 (square a).
Proof.
  unfold square.
  assert (Hsq : forall y, 0 <= y ^ 2) by (intros; rewrite Z.pow_2_r; nia).
  assert (Hnn : forall l, 0 <= fold_right Z.add 0 (map (fun v => v ^ 2) l)).
  { induction l as [|y l IHl]; cbn [map fold_right]; [lia|].
    specialize (Hsq y). lia. }
  induction 1 as [x a Hx | x a _ IH]; cbn [map fold_right].
  - specialize (Hnn a). rewrite Z.pow_2_r.
    assert (0 < x * x) by nia. lia.
  - specialize (Hsq x). lia.
Qed.

(** C8. For every bit vector [a] with a nonzero entry, [tanimoto a a]
    and [bit_tanimoto a a] are exactly 1. *)
Theorem tanimoto_self_similarity (a : vec) :
  binary a -> nonzero a ->
  tanimoto a a = Ok 1%float /\ bit_tanimoto a a = Ok 1%float.
Proof.
  intros _ Hnz. split.
  - unfold tanimoto, broadcast. rewrite Nat.eqb_refl. simpl bind.
    rewrite map2_mul_self, py_sum_eq.
    pose proof (sum_square_pos a Hnz) as Hpos.
    destruct (square a) as [|y l] eqn:E; [simpl in Hpos; lia|].
    unfold int_truediv, int_add, int_sub, int_op. simpl.
    replace (_ - _) with (y + fold_right Z.add 0 l) by lia.
    rewrite np_true_divide_same; [reflexivity|].
    simpl in Hpos. lia.
  - rewrite bit_tanimoto_eq by lia. rewrite agree_nonzero_self.
    pose proof (count_nonzero_pos a Hnz) as Hpos.
    replace (_ - _) with (count_nonzero a) by lia.
    apply py_truediv_same. lia.
Qed.

Lemma tanimoto_self_similarity_witness :
  tanimoto [1; 0; 1] [1; 0; 1] = Ok 1%float
  /\ bit_tanimoto [1; 0; 1] [1; 0; 1] = Ok 1%float.
Proof.
  apply (tanimoto_self_similarity [1; 0; 1]).
  - apply binary_intro. reflexivity.
  - apply Exists_cons_hd. lia.
Defined.

(* ================================================================== *)
(** * Modified Tanimoto *)

Lemma map2_comm {A B : Type} (f : A -> A -> B) (a : list A) :
  (forall x y, f x y = f y x) -> forall b, map2 f a b = map2 f b a.
Proof.
  intros Hf. induction a as [|x a IH]; intros [|y b]; simpl; try reflexivity.
  rewrite Hf, IH. reflexivity.
Qed.


Lemma map2_length {A B C : Type} (f : A -> B -> C) (a : list A) :
  forall b, length a = length b -> length (map2 f a b) = length a.
Proof.
  induction a as [|x a IH]; intros [|y b] H; simpl in *; try lia.
  rewrite IH by lia. reflexivity.
Qed.

Lemma np_true_divide_nonzero (x y : Z) :
  y <> 0 -> np_true_divide x y = Zdiv2float x y.
Proof.
  intros Hy. unfold np_true_divide.
  destruct (Z.eqb_spec y 0); [contradiction | reflexivity].
Qed.

(** What [modified_tanimoto] computes on two vectors of equal length:
    the formula when the vectors are not empty, and a division of the
    [int] 0 by the [int] 0 when they are. *)
Lemma modified_tanimoto_eq (a b : vec) :
  length a = length b ->
  modified_tanimoto a b
  = if len a =? 0 then Raise ZeroDivisionError
    else Ok (mt_formula (len a) (dot a b) (dot (rsub 1 a) (rsub 1 b))).
Proof.
  intros Hlen. unfold modified_tanimoto, broadcast.
  assert (Hlen' : length (rsub 1 a) = length (rsub 1 b))
    by (unfold rsub; rewrite !length_map; exact Hlen).
  rewrite Hlen', Hlen, !Nat.eqb_refl. simpl bind.
  rewrite !py_sum_eq.
  pose proof (map2_length Z.mul a b Hlen) as L1.
  pose proof (map2_length Z.mul (rsub 1 a) (rsub 1 b) Hlen') as L0.
  unfold rsub in L0 at 3. rewrite length_map in L0.
  unfold dot, len.
  destruct a as [|x a].
  - destruct b as [|y b]; [reflexivity | discriminate].
  - destruct (map2 Z.mul (x :: a) b) as [|u l1] eqn:E1; [discriminate|].
    destruct (map2 Z.mul (rsub 1 (x :: a)) (rsub 1 b)) as [|v l0] eqn:E0;
      [discriminate|].
    set (n := Z.of_nat (length (x :: a))).
    assert (Hn : n <> 0) by (subst n; simpl length; lia).
    destruct (Z.eqb_spec n 0) as [|_]; [contradiction|].
    set (n_11 := fold_right Z.add 0 (u :: l1)).
    set (n_00 := fold_right Z.add 0 (v :: l0)).
    unfold mt_formula, int_eqb, int_truediv, int_add, int_sub, int_mul, int_op.
    cbn [is_np int_val orb].
    rewrite (np_true_divide_nonzero (n - n_00 + n_11) (2 * n)) by lia.
    destruct (Z.eqb_spec n_00 n) as [H0|H0];
      destruct (Z.eqb_spec n_11 n) as [H1|H1]; cbn [bind];
      rewrite ?np_true_divide_nonzero by lia; reflexivity.
Qed.

(** C4. For equal-length bit vectors [a] and [b] of length [n], with
    [n_11 = dot a b] and [n_00 = dot (1 - a) (1 - b)],
    [modified_tanimoto] returns [((2 - p) / 3) t_1 + ((1 + p) / 3) t_0]
    where [t_1] is 1 exactly when [n_00 = n] and [n_11 / (n - n_00)]
    otherwise, [t_0] is 1 exactly when [n_11 = n] and [n_00 / (n - n_11)]
    otherwise, and [p = ((n - n_00) + n_11) / (2 n)]; on [[1,1,1]] and
    [[1,1,1]] the result is 1.0.  (Vectors of length 0, for which [p]
    has no value, raise [ZeroDivisionError].) *)
Theorem modified_tanimoto_formula (a b : vec) :
  binary a -> binary b -> length a = length b ->
  modified_tanimoto a b
  = (if len a =? 0 then Raise ZeroDivisionError
     else Ok (mt_formula (len a) (dot a b) (dot (rsub 1 a) (rsub 1 b))))
  /\ modified_tanimoto [1; 1; 1] [1; 1; 1] = Ok 1%float.
Proof.
  intros _ _ Hlen.
  split; [apply modified_tanimoto_eq; exact Hlen | reflexivity].
Qed.

Lemma modified_tanimoto_formula_witness :
  modified_tanimoto [1; 1; 0] [1; 0; 0] = Ok (mt_formula 3 1 1)
  /\ modified_tanimoto [1; 1; 1] [1; 1; 1] = Ok 1%float.
Proof.
  exact (modified_tanimoto_formula [1; 1; 0] [1; 0; 0]
           (binary_intro [1; 1; 0] eq_refl) (binary_intro [1; 0; 0] eq_refl)
           eq_refl).
Defined.



(* ================================================================== *)
(** * The matrix of pairwise_similarity_bit *)

Lemma nth_map_seq {A : Type} (f : nat -> A) (n i : nat) (d : A) :
  (i < n)%nat -> nth i (map f (seq 0 n)) d = f i.
Proof.
  intros Hi.
  rewrite (nth_indep _ d (f 0%nat)) by (rewrite length_map, length_seq; exact Hi).
  rewrite map_nth, seq_nth by exact Hi. reflexivity.
Qed.

Lemma entry_table (n : nat) (f : nat -> nat -> float) (i j : nat) :
  (i < n)%nat -> (j < n)%nat -> entry (table n f) i j = f i j.
Proof.
  intros Hi Hj. unfold entry, table.
  rewrite nth_map_seq by exact Hi. apply nth_map_seq; exact Hj.
Qed.

Lemma table_shape (n : nat) (f : nat -> nat -> float) :
  length (table n f) = n /\ Forall (fun row => length row = n) (table n f).
Proof.
  unfold table. split.
  - rewrite length_map, length_seq. reflexivity.
  - apply Forall_forall. intros row Hrow.
    apply in_map_iff in Hrow. destruct Hrow as (i & <- & _).
    rewrite length_map, length_seq. reflexivity.
Qed.

Lemma zip_with_map {A I : Type} (F : A -> A -> result A) (f g h : I -> A)
  (l : list I) :
  (forall i, In i l -> F (f i) (g i) = Ok (h i)) ->
  zip_with F (map f l) (map g l) = Ok (map h l).
Proof.
  induction l as [|i l IH]; intros HF; simpl; [reflexivity|].
  rewrite (HF i) by (left; reflexivity). simpl.
  rewrite IH by (intros j Hj; apply HF; right; exact Hj). reflexivity.
Qed.

Lemma broadcast_with_map {A I : Type} (err : exn) (F : A -> A -> result A)
  (f g h : I -> A) (l : list I) :
  (forall i, In i l -> F (f i) (g i) = Ok (h i)) ->
  broadcast_with err F (map f l) (map g l) = Ok (map h l).
Proof.
  intros HF. unfold broadcast_with.
  rewrite !length_map, Nat.eqb_refl. apply zip_with_map; exact HF.
Qed.

Lemma mat_add_table (n : nat) (f g : nat -> nat -> float) :
  mat_add (table n f) (table n g) = Ok (table n (fun i j => (f i j + g i j)%float)).
Proof.
  unfold mat_add, table. cbv zeta.
  apply broadcast_with_map. intros i _.
  apply broadcast_with_map. intros j _. reflexivity.
Qed.

Lemma triangle_half (i : nat) : ((i * (i + 1)) / 2 = triangle i)%nat.
Proof.
  assert (H : (i * (i + 1) = triangle i * 2)%nat)
    by (induction i as [|i IH]; cbn [triangle]; lia).
  rewrite H. apply Nat.div_mul. discriminate.
Qed.

Lemma square_entry_sym (v : list float) (d i j : nat) :
  square_entry v d i j = square_entry v d j i.
Proof.
  unfold square_entry.
  rewrite (Nat.eqb_sym i j), (Nat.min_comm i j), (Nat.max_comm i j).
  reflexivity.
Qed.

(** The condensed vector of [n] rows has [n (n - 1) / 2] entries. *)
Lemma pair_row_length (feature : matrix) (metric : vec -> vec -> result float)
  (i : nat) (js : list nat) :
  forall acc l,
    for_each (pair_row feature metric i) js acc = Ok l ->
    length l = (length acc + length js)%nat.
Proof.
  induction js as [|j js IH]; intros acc l H; simpl in H.
  - assert (l = acc) by congruence. subst l. simpl. lia.
  - unfold pair_row at 1 in H.
    destruct (getitem feature i) as [fi|]; simpl in H; [|discriminate].
    destruct (getitem feature j) as [fj|]; simpl in H; [|discriminate].
    destruct (metric fi fj) as [v|]; simpl in H; [|discriminate]. apply IH in H. rewrite H, length_app. simpl. lia.
Qed.

Lemma pairs_loop_length (feature : matrix) (metric : vec -> vec -> result float)
  (size : nat) (m : nat) :
  forall k acc l,
    for_each
      (fun pair_simi i =>
         for_each (pair_row feature metric i) (range (i + 1) size) pair_simi)
      (seq k m) acc = Ok l ->
    (k + m = size)%nat ->
    (length l * 2 = length acc * 2 + m * (m - 1))%nat.
Proof.
  induction m as [|m IH]; intros k acc l H Hk; simpl in H.
  - assert (l = acc) by congruence. subst l. simpl. lia.
  - destruct (for_each (pair_row feature metric k) (range (k + 1) size) acc)
      as [acc'|] eqn:E; [|discriminate].
    simpl in H. apply pair_row_length in E.
    unfold range in E. rewrite length_seq in E.
    apply IH in H; [|lia]. rewrite H, E.
    replace (size - (k + 1))%nat with m by lia.
    replace (S m - 1)%nat with m by lia.
    destruct m as [|m']; [lia|].
    replace (S m' - 1)%nat with m' by lia. lia.
Qed.

Lemma pairs_length (feature : matrix) (metric : vec -> vec -> result float)
  (l : list float) :
  pairs feature metric = Ok l ->
  (length l * 2 = length feature * (length feature - 1))%nat.
Proof.
  intros H. unfold pairs, range in H.
  rewrite Nat.sub_0_r in H.
  apply pairs_loop_length with (size := length feature) in H.
  - simpl in H. exact H.
  - reflexivity.
Qed.

Lemma squareform_table (v : list float) (n : nat) :
  (0 < n)%nat -> (length v * 2 = n * (n - 1))%nat ->
  squareform v = Ok (table n (square_entry v n)).
Proof.
  intros Hn Hlen. unfold squareform.
  destruct (Nat.eqb_spec (length v) 0) as [Hz|Hnz].
  - assert (n = 1%nat) by (destruct n as [|[|n']]; simpl in Hlen; lia).
    subst n. destruct v; [reflexivity | discriminate].
  - assert (Hd : Nat.sqrt_up (length v * 2) = n).
    { apply Nat.sqrt_up_unique; [exact Hn|].
      destruct n as [|[|n']]; simpl in *; nia. }
    rewrite Hd, Hlen, Nat.eqb_refl. reflexivity.
Qed.

Lemma for_each_total {S I : Type} (body : S -> I -> result S) (l : list I) :
  (forall s i, In i l -> exists s', body s i = Ok s') ->
  forall s, exists s', for_each body l s = Ok s'.
Proof.
  induction l as [|i l IH]; intros Hb s; simpl; [eexists; reflexivity|].
  destruct (Hb s i (or_introl eq_refl)) as [s' ->]. simpl.
  apply IH. intros s0 j Hj. apply Hb. right; exact Hj.
Qed.

Lemma getitem_lt {A : Type} (a : list A) (i : nat) :
  (i < length a)%nat -> exists v, getitem a i = Ok v /\ nth_error a i = Some v.
Proof.
  intros Hi. unfold getitem.
  destruct (nth_error a i) as [v|] eqn:E.
  - exists v. split; reflexivity.
  - apply nth_error_None in E. lia.
Qed.

(** The metric is called on the rows [i < j] only: when it returns a
    value on those, the loops return the condensed vector. *)
Lemma pairs_total (feature : matrix) (metric : vec -> vec -> result float) :
  (forall i j fi fj, (i < j)%nat ->
     nth_error feature i = Some fi -> nth_error feature j = Some fj ->
     exists v, metric fi fj = Ok v) ->
  exists l, pairs feature metric = Ok l.
Proof.
  intros Htot. unfold pairs.
  apply for_each_total. intros acc i Hi.
  apply for_each_total. intros acc' j Hj.
  unfold range in Hi, Hj. apply in_seq in Hi. apply in_seq in Hj.
  destruct (getitem_lt feature i) as (fi & Ei & Ni); [lia|].
  destruct (getitem_lt feature j) as (fj & Ej & Nj); [lia|].
  destruct (Htot i j fi fj ltac:(lia) Ni Nj) as [v Ev].
  unfold pair_row. rewrite Ei, Ej. simpl. rewrite Ev. simpl.
  eexists; reflexivity.
Qed.

(** What [pairwise_similarity_bit] returns once its pairs are computed. *)
Lemma pairwise_similarity_bit_eq (feature : matrix)
  (metric : vec -> vec -> result float) (l : list float) :
  pairs feature metric = Ok l ->
  pairwise_similarity_bit feature metric
  = Ok (table (length feature)
          (fun i j => (square_entry l (length feature) i j
                       + (if Nat.eqb i j then 1 else 0))%float)).
Proof.
  intros Hp. unfold pairwise_similarity_bit. rewrite Hp. simpl bind.
  pose proof (pairs_length _ _ _ Hp) as Hlen.
  destruct (length feature) as [|n'] eqn:En.
  - destruct l; [reflexivity | simpl in Hlen; lia].
  - rewrite (squareform_table l (S n')) by (lia || exact Hlen).
    simpl bind. change (identity (S n'))
      with (table (S n') (fun i j => if Nat.eqb i j then 1%float else 0%float)).
    rewrite mat_add_table. reflexivity.
Qed.

(** C3, as the code has it.  For a feature matrix of [N] rows and a pair
    metric that returns a value on every pair of rows [i < j],
    [pairwise_similarity_bit]
    returns an [N] x [N] matrix [M] with [M[i][j] = M[j][i]] for all [i],
    [j] (the same binary64 value, so that the floating-point comparison
    [M[i][j] == M[j][i]] holds for every entry that is not nan), whose
    diagonal entries are exactly 1 whatever the rows hold: the diagonal
    is the zero diagonal of the expanded pair vector plus the identity
    matrix, and the metric is never called on a row and itself. *)
Theorem pairwise_similarity_bit_matrix (feature : matrix)
  (metric : vec -> vec -> result float) :
  (forall i j fi fj, (i < j)%nat ->
     nth_error feature i = Some fi -> nth_error feature j = Some fj ->
     exists v, metric fi fj = Ok v) ->
  exists M,
    pairwise_similarity_bit feature metric = Ok M
    /\ length M = length feature
    /\ Forall (fun row => length row = length feature) M
    /\ (forall i j, (i < length feature)%nat -> (j < length feature)%nat ->
                    entry M i j = entry M j i
                    /\ (is_nan (entry M i j) = false ->
                        (entry M i j =? entry M j i)%float = true))
    /\ (forall i, (i < length feature)%nat -> entry M i i = 1%float).
Proof.
  intros Htot. destruct (pairs_total feature metric Htot) as [l Hl].
  eexists. split; [apply pairwise_similarity_bit_eq; exact Hl|].
  destruct (table_shape (length feature)
              (fun i j => (square_entry l (length feature) i j
                           + (if Nat.eqb i j then 1 else 0))%float))
    as [Hrows Hcols].
  split; [exact Hrows|]. split; [exact Hcols|]. split.
  - intros i j Hi Hj. rewrite !entry_table by assumption.
    rewrite (square_entry_sym l _ i j), (Nat.eqb_sym i j).
    split; [reflexivity|].
    unfold is_nan. intros Hnan. apply negb_false_iff in Hnan. exact Hnan.
  - intros i Hi. rewrite entry_table by assumption.
    unfold square_entry. rewrite Nat.eqb_refl. reflexivity.
Qed.

Lemma pairwise_similarity_bit_matrix_witness :
  exists M,
    pairwise_similarity_bit [[1; 1; 0]; [1; 0; 0]; [0; 0; 0]] bit_tanimoto = Ok M
    /\ length M = 3%nat
    /\ Forall (fun row => length row = 3%nat) M
    /\ (forall i j, (i < 3)%nat -> (j < 3)%nat ->
                    entry M i j = entry M j i
                    /\ (is_nan (entry M i j) = false ->
                        (entry M i j =? entry M j i)%float = true))
    /\ (forall i, (i < 3)%nat -> entry M i i = 1%float).
Proof.
  apply (pairwise_similarity_bit_matrix [[1; 1; 0]; [1; 0; 0]; [0; 0; 0]]
           bit_tanimoto).
  intros i j fi fj Hlt Hi Hj.
  destruct i as [|[|[|i]]]; destruct j as [|[|[|j]]];
    try (exfalso; lia); try (destruct i; discriminate Hi);
    try (destruct j; discriminate Hj);
    injection Hi as <-; injection Hj as <-; eexists; reflexivity.
Defined.

(** C3, as the specification states it, fails: [tanimoto] of two
    all-zero rows is nan (numpy's 0 / 0), the matrix holds it at [(0, 1)]
    and at [(1, 0)], and nan is not [==] to itself. *)
Lemma pairwise_similarity_bit_nan_entries :
  tanimoto [0; 0] [0; 0] = Ok nan
  /\ pairwise_similarity_bit [[0; 0]; [0; 0]] tanimoto
     = Ok [[1; nan]; [nan; 1]]%float
  /\ (entry [[1; nan]; [nan; 1]] 0 1 =? entry [[1; nan]; [nan; 1]] 1 0)%float
     = false.
Proof. split; [|split]; reflexivity. Qed.

(** ** The entries off the diagonal

    The pairs are computed row by row, and the expanded matrix holds at
    [(i, j)] and [(j, i)] what the metric returned on the rows [i < j]. *)

Section PairwiseEntries.

Variable feature : matrix.
Variable metric : vec -> vec -> result float.

(** [val i j] is what the metric returns on the rows [i < j]. *)
Variable val : nat -> nat -> float.
Hypothesis metric_val :
  forall i j fi fj, (i < j)%nat ->
    nth_error feature i = Some fi -> nth_error feature j = Some fj ->
    metric fi fj = Ok (val i j).

Lemma pair_row_loop (i n : nat) :
  forall k acc,
    (i < k)%nat -> (k + n <= length feature)%nat ->
    for_each (pair_row feature metric i) (seq k n) acc
    = Ok (acc ++ map (val i) (seq k n)).
Proof.
  induction n as [|n IH]; intros k acc Hik Hk; cbn [seq map for_each].
  - rewrite app_nil_r. reflexivity.
  - destruct (getitem_lt feature i) as (fi & Ei & Ni); [lia|].
    destruct (getitem_lt feature k) as (fk & Ek & Nk); [lia|].
    unfold pair_row at 1. rewrite Ei, Ek. cbn [bind].
    rewrite (metric_val i k fi fk Hik Ni Nk). cbn [bind].
    rewrite IH by lia. rewrite <- app_assoc. reflexivity.
Qed.

Lemma pairs_loop (n : nat) :
  forall k acc,
    (k + n <= length feature)%nat ->
    for_each
      (fun pair_simi i =>
         for_each (pair_row feature metric i) (range (i + 1) (length feature))
           pair_simi)
      (seq k n) acc
    = Ok (acc ++ flat_map (fun i => map (val i) (range (i + 1) (length feature)))
                   (seq k n)).
Proof.
  induction n as [|n IH]; intros k acc Hk; cbn [seq flat_map for_each].
  - rewrite app_nil_r. reflexivity.
  - unfold range at 1. rewrite pair_row_loop by lia. cbn [bind].
    rewrite IH by lia. rewrite <- app_assoc. reflexivity.
Qed.

Lemma pairs_eq :
  pairs feature metric
  = Ok (flat_map (fun i => map (val i) (range (i + 1) (length feature)))
          (seq 0 (length feature))).
Proof.
  unfold pairs. unfold range at 2. rewrite Nat.sub_0_r.
  rewrite pairs_loop by lia. reflexivity.
Qed.

(** The rows before row [i] fill the first [i N - i (i + 1) / 2] places
    of the condensed vector. *)
Lemma condensed_offset (i : nat) :
  (i <= length feature)%nat ->
  (length (flat_map (fun i => map (val i) (range (i + 1) (length feature)))
             (seq 0 i))
   + triangle i = i * length feature)%nat.
Proof.
  induction i as [|i IH]; intros Hi; [reflexivity|].
  rewrite seq_S, flat_map_app, length_app. cbn [flat_map Nat.add].
  rewrite app_nil_r, length_map. unfold range at 2. rewrite length_seq.
  cbn [triangle]. specialize (IH ltac:(lia)). lia.
Qed.

Lemma condensed_entry (i j : nat) :
  (i < j)%nat -> (j < length feature)%nat ->
  nth (condensed_index (length feature) i j)
    (flat_map (fun i => map (val i) (range (i + 1) (length feature)))
       (seq 0 (length feature))) 0%float
  = val i j.
Proof.
  intros Hij Hj.
  set (row := fun i => map (val i) (range (i + 1) (length feature))).
  pose proof (condensed_offset i ltac:(lia)) as Hoff. fold row in Hoff.
  assert (Hidx : condensed_index (length feature) i j
                 = (length (flat_map row (seq 0 i)) + (j - i - 1))%nat).
  { unfold condensed_index. rewrite triangle_half. lia. }
  rewrite Hidx.
  assert (Hsplit : seq 0 (length feature)
                   = seq 0 i ++ seq i (S (length feature - i - 1))).
  { rewrite <- seq_app. f_equal. lia. }
  rewrite Hsplit, flat_map_app, app_nth2_plus.
  cbn [Nat.add seq flat_map].
  rewrite app_nth1
    by (unfold row, range; rewrite length_map, length_seq; lia).
  unfold row, range.
  rewrite (nth_indep _ 0%float (val i 0%nat))
    by (rewrite length_map, length_seq; lia).
  rewrite map_nth, seq_nth by lia. f_equal. lia.
Qed.

(** The entries of the matrix: 1 on the diagonal, and the value of the
    metric on the rows [min i j] and [max i j] (plus the 0.0 of the
    identity matrix) elsewhere. *)
Theorem pairwise_similarity_bit_entry :
  exists M,
    pairwise_similarity_bit feature metric = Ok M
    /\ forall i j, (i < length feature)%nat -> (j < length feature)%nat ->
         entry M i j
         = if Nat.eqb i j then 1%float
           else (val (Nat.min i j) (Nat.max i j) + 0)%float.
Proof.
  eexists. split; [apply pairwise_similarity_bit_eq; apply pairs_eq|].
  intros i j Hi Hj. rewrite entry_table by assumption.
  unfold square_entry.
  destruct (Nat.eqb_spec i j) as [_|Hne]; [reflexivity|].
  rewrite condensed_entry by lia. reflexivity.
Qed.

End PairwiseEntries.

(** The rows [[0]], [[1]], [[2]], [[3]] under a metric that encodes the
    pair it is called on: entry [(i, j)] holds the value for the pair
    [(min i j, max i j)]. *)
Example pairwise_similarity_bit_entries :
  pairwise_similarity_bit [[0]; [1]; [2]; [3]]
    (fun a b => Ok (Z2float (10 * nth 0 a 0 + nth 0 b 0)))
  = Ok [[ 1;  1;  2;  3];
        [ 1;  1; 12; 13];
        [ 2; 12;  1; 23];
        [ 3; 13; 23;  1]]%float.
Proof. reflexivity. Qed.

(* ================================================================== *)
(** * The dispatcher *)

Section DispatcherFacts.

Variable sklearn_supported_metrics : list string.
Variable pairwise_distances : matrix -> string -> Z -> bool -> result fmatrix.

(** C1. On a built-in metric name that the backend does not know,
    [compute_distance_matrix] looks the pair metric up and calls it on
    the feature matrix alone: the call raises [TypeError] for every
    feature matrix, and [pairwise_similarity_bit] is never reached.  On
    the rows [[1,1,0]] and [[1,0,0]] the pairwise engine itself returns
    the matrix [[1, 0.5], [0.5, 1]]. *)
Theorem compute_distance_matrix_built_in (features : matrix)
  (n_jobs : Z) (force_all_finite : bool) :
  compute_distance_matrix sklearn_supported_metrics pairwise_distances
    features "tanimoto" n_jobs force_all_finite
  = (if str_in "tanimoto" sklearn_supported_metrics
     then pairwise_distances features "tanimoto"%string n_jobs force_all_finite
     else Raise (TypeError
                   "tanimoto() missing 1 required positional argument: 'b'"))
  /\ compute_distance_matrix sklearn_supported_metrics pairwise_distances
       features "modified_tanimoto" n_jobs force_all_finite
     = (if str_in "modified_tanimoto" sklearn_supported_metrics
        then pairwise_distances features "modified_tanimoto"%string
               n_jobs force_all_finite
        else Raise (TypeError
                      "modified_tanimoto() missing 1 required positional argument: 'b'"))
  /\ compute_distance_matrix ["euclidean"; "cosine"; "manhattan"]%string
       pairwise_distances [[1; 1; 0]; [1; 0; 0]] "tanimoto" n_jobs
       force_all_finite
     = Raise (TypeError
                "tanimoto() missing 1 required positional argument: 'b'")
  /\ pairwise_similarity_bit [[1; 1; 0]; [1; 0; 0]] tanimoto
     = Ok [[1; 0.5]; [0.5; 1]]%float.
Proof.
  unfold compute_distance_matrix.
  split; [reflexivity | split; [reflexivity | split; reflexivity]].
Qed.

(** C6. On a metric name that is neither in the backend's set nor in
    the built-in set, [compute_distance_matrix] returns no matrix: it
    raises [ValueError] with a message that names the metric. *)
Theorem compute_distance_matrix_unsupported (features : matrix)
  (metric : string) (n_jobs : Z) (force_all_finite : bool) :
  str_in metric sklearn_supported_metrics = false ->
  str_in metric built_in_metrics = false ->
  compute_distance_matrix sklearn_supported_metrics pairwise_distances
    features metric n_jobs force_all_finite
  = Raise (ValueError
             ("Metric " ++ metric ++ " is not supported by the library.")).
Proof.
  intros Hsk Hbi. unfold compute_distance_matrix.
  rewrite Hsk, Hbi. reflexivity.
Qed.

End DispatcherFacts.

Lemma compute_distance_matrix_unsupported_witness :
  compute_distance_matrix ["euclidean"; "cosine"; "manhattan"]%string
    (fun _ _ _ _ => Ok []) [[1; 1; 0]; [1; 0; 0]] "not_a_real_metric" (-1) true
  = Raise (ValueError "Metric not_a_real_metric is not supported by the library.").
Proof.
  exact (compute_distance_matrix_unsupported
           ["euclidean"; "cosine"; "manhattan"]%string (fun _ _ _ _ => Ok [])
           [[1; 1; 0]; [1; 0; 0]] "not_a_real_metric" (-1) true eq_refl eq_refl).
Defined.

(* ================================================================== *)
(** * Shapes *)

Lemma euc_bit_with_raises (pw : Z -> float) (a b : vec) :
  (length b < length a)%nat -> euc_bit_with pw a b = Raise IndexError.
Proof.
  intros H. unfold euc_bit_with. rewrite intersection_raises by exact H.
  reflexivity.
Qed.

Lemma euc_bit_raises (a b : vec) :
  (length b < length a)%nat -> euc_bit a b = Raise IndexError.
Proof. apply euc_bit_with_raises. Qed.


Lemma euc_bit_self (a : vec) : exists d, euc_bit a a = Ok d.
Proof. eexists. apply euc_bit_eq. lia. Qed.

(** The search of [nearest_average_tanimoto] for row [idx] leaves
    [short], [a] and [b] as they were set before the loop when no other
    row is at a distance below [short]. *)
Lemma search_unchanged (x : matrix) (idx : nat) (xi : vec) :
  nth_error x idx = Some xi ->
  (forall jdx xj, jdx <> idx -> nth_error x jdx = Some xj ->
                  exists d, euc_bit xi xj = Ok d /\ (d <? 100)%float = false) ->
  search_nearest x idx = Ok {| short := 100; nearest_a := 0; nearest_b := 0 |}.
Proof.
  intros Hi Hfar. unfold search_nearest.
  assert (Hjs : forall js, (forall j, In j js -> (j < length x)%nat) ->
    for_each (search_step x idx) js
      {| short := 100; nearest_a := 0; nearest_b := 0 |}
    = Ok {| short := 100; nearest_a := 0; nearest_b := 0 |}).
  { induction js as [|j js IH]; intros Hin; [reflexivity|].
    cbn [for_each]. unfold search_step at 1. unfold getitem. rewrite Hi.
    destruct (nth_error x j) as [xj|] eqn:Ej.
    2:{ apply nth_error_None in Ej.
        specialize (Hin j (or_introl eq_refl)). lia. }
    cbn [bind short].
    destruct (Nat.eqb_spec idx j) as [->|Hne].
    - assert (xj = xi) by congruence. subst xj.
      destruct (euc_bit_self xi) as [d ->]. cbn [bind negb].
      rewrite andb_false_r. cbn [bind].
      apply IH. intros k Hk. apply Hin. right; exact Hk.
    - destruct (Hfar j xj (not_eq_sym Hne) Ej) as (d & -> & Hd).
      cbn [bind]. rewrite Hd. cbn [andb bind].
      apply IH. intros k Hk. apply Hin. right; exact Hk. }
  apply Hjs. intros j Hj. unfold enumerate in Hj. apply in_seq in Hj. lia.
Qed.

Lemma shortest_tanimoto_unchanged (x : matrix) (idx : nat) (xi x0 : vec) :
  nth_error x idx = Some xi ->
  nth_error x 0 = Some x0 ->
  (forall jdx xj, jdx <> idx -> nth_error x jdx = Some xj ->
                  exists d, euc_bit xi xj = Ok d /\ (d <? 100)%float = false) ->
  shortest_tanimoto x idx = bit_tanimoto x0 x0.
Proof.
  intros Hi H0 Hfar. unfold shortest_tanimoto.
  rewrite (search_unchanged x idx xi Hi Hfar). cbn [bind nearest_a nearest_b].
  unfold getitem. rewrite H0. reflexivity.
Qed.

(* ================================================================== *)
(** * The search for the nearest row *)

(** The order of binary64: [<] is irreflexive and transitive (nan
    compares false with everything). *)

Lemma SFltb_irrefl (a : spec_float) : SFltb a a = false.
Proof.
  unfold SFltb.
  destruct a as [s|s| |s m e]; simpl; try reflexivity.
  - destruct s; reflexivity.
  - rewrite Z.compare_refl, Pos.compare_cont_refl. destruct s; reflexivity.
Qed.

Lemma SFltb_trans (a b c : spec_float) :
  SFltb a b = true -> SFltb b c = true -> SFltb a c = true.
Proof.
  unfold SFltb.
  destruct a as [sa|sa| |sa ma ea]; destruct b as [sb|sb| |sb mb eb];
    destruct c as [sc|sc| |sc mc ec]; simpl;
    try destruct sa; try destruct sb; try destruct sc;
    try discriminate; try reflexivity;
    fold (Pos.compare ma mb); fold (Pos.compare mb mc); fold (Pos.compare ma mc);
    destruct (Z.compare_spec ea eb); destruct (Z.compare_spec eb ec);
    destruct (Z.compare_spec ea ec); try discriminate; try reflexivity; try lia;
    destruct (Pos.compare_spec ma mb); destruct (Pos.compare_spec mb mc);
    destruct (Pos.compare_spec ma mc); simpl; try discriminate; try reflexivity;
    lia.
Qed.

Lemma ltb_irrefl (x : float) : (x <? x)%float = false.
Proof. rewrite ltb_spec. apply SFltb_irrefl. Qed.

Lemma ltb_trans (x y z : float) :
  (x <? y)%float = true -> (y <? z)%float = true -> (x <? z)%float = true.
Proof. rewrite !ltb_spec. apply SFltb_trans. Qed.

Section NearestSearch.

Variable x : matrix.
Variable idx : nat.
Variable xi : vec.

(** [dist j] is the distance from row [idx] to row [j]. *)
Variable dist : nat -> float.
Hypothesis row_idx : nth_error x idx = Some xi.
Hypothesis dist_euc_bit :
  forall j xj, nth_error x j = Some xj -> euc_bit xi xj = Ok (dist j).

Lemma search_step_eq (st : search) (j : nat) :
  (j < length x)%nat ->
  search_step x idx st j
  = Ok (if (dist j <? short st)%float && negb (Nat.eqb idx j)
        then {| short := dist j; nearest_a := idx; nearest_b := j |}
        else st).
Proof.
  intros Hj. unfold search_step, getitem. rewrite row_idx.
  destruct (nth_error x j) as [xj|] eqn:Ej.
  - cbn [bind]. rewrite (dist_euc_bit j xj Ej). cbn [bind].
    destruct ((dist j <? short st)%float && negb (Nat.eqb idx j)); reflexivity.
  - apply nth_error_None in Ej. lia.
Qed.

Lemma searched_step (k : nat) (st : search) :
  searched dist idx k st ->
  searched dist idx (S k)
    (if (dist k <? short st)%float && negb (Nat.eqb idx k)
     then {| short := dist k; nearest_a := idx; nearest_b := k |}
     else st).
Proof.
  intros [Hmin Hst].
  destruct ((dist k <? short st)%float) eqn:Hlt;
    destruct (Nat.eqb_spec idx k) as [Heq|Hne]; cbn [andb negb].
  - split; [|destruct Hst as [?|(b & ? & ? & ? & ? & ?)];
             [left; assumption | right; exists b; repeat split; auto; lia]].
    intros j Hj Hji. apply Hmin; [lia | exact Hji].
  - split.
    + cbn [short]. intros j Hj Hji.
      destruct (Nat.eq_dec j k) as [->|Hjk]; [apply ltb_irrefl|].
      destruct (dist j <? dist k)%float eqn:E; [|reflexivity].
      rewrite <- (Hmin j ltac:(lia) Hji). symmetry.
      apply (ltb_trans _ _ _ E Hlt).
    + right. exists k. repeat split; [lia | auto | |].
      * destruct Hst as [->|(b & _ & _ & -> & Hb & _)]; [exact Hlt|].
        apply (ltb_trans _ _ _ Hlt Hb).
      * intros j Hj Hji E. rewrite <- E, (Hmin j Hj Hji) in Hlt. discriminate.
  - split; [|destruct Hst as [?|(b & ? & ? & ? & ? & ?)];
             [left; assumption | right; exists b; repeat split; auto; lia]].
    intros j Hj Hji. apply Hmin; [lia | exact Hji].
  - split; [|destruct Hst as [?|(b & ? & ? & ? & ? & ?)];
             [left; assumption | right; exists b; repeat split; auto; lia]].
    intros j Hj Hji.
    destruct (Nat.eq_dec j k) as [->|Hjk]; [exact Hlt | apply Hmin; [lia | exact Hji]].
Qed.

Lemma searched_loop (n : nat) :
  forall k st,
    (k + n <= length x)%nat -> searched dist idx k st ->
    exists st', for_each (search_step x idx) (seq k n) st = Ok st'
                /\ searched dist idx (k + n) st'.
Proof.
  induction n as [|n IH]; intros k st Hk Hs.
  - exists st. rewrite Nat.add_0_r. split; [reflexivity | exact Hs].
  - cbn [seq for_each]. rewrite search_step_eq by lia. cbn [bind].
    destruct (IH (S k) _ ltac:(lia) (searched_step k st Hs)) as (st' & E & Hs').
    exists st'. split; [exact E|]. rewrite Nat.add_succ_r. exact Hs'.
Qed.

(** When some other row is at a distance below 100, the search ends on
    the pair [(idx, b)] where [b] is another row, no row other than [idx]
    is strictly nearer than [b], and [b] is the first row at its distance
    (ties keep the first row found). *)
Theorem search_nearest_minimum :
  (exists j, (j < length x)%nat /\ j <> idx /\ (dist j <? 100)%float = true) ->
  exists b,
    search_nearest x idx
    = Ok {| short := dist b; nearest_a := idx; nearest_b := b |}
    /\ (b < length x)%nat /\ b <> idx
    /\ (dist b <? 100)%float = true
    /\ (forall j, (j < length x)%nat -> j <> idx -> (dist j <? dist b)%float = false)
    /\ (forall j, (j < b)%nat -> j <> idx -> dist j <> dist b).
Proof.
  intros (j & Hj & Hji & Hnear).
  assert (H0 : searched dist idx 0 search_init).
  { split; [intros ? ?; lia | left; reflexivity]. }
  destruct (searched_loop (length x) 0 search_init ltac:(lia) H0)
    as (st & E & Hmin & Hst).
  destruct Hst as [->|(b & Hb & Hbi & -> & Hb100 & Hfirst)].
  - pose proof (Hmin j Hj Hji) as Hfar. cbn [short search_init] in Hfar.
    rewrite Hfar in Hnear. discriminate.
  - exists b. split; [exact E|]. repeat split; auto.
Qed.

End NearestSearch.

(** The same for a feature matrix whose rows all have the length [D],
    with the distances written out. *)
Corollary search_nearest_rectangular (x : matrix) (D idx : nat) (xi : vec) :
  Forall (fun row => length row = D) x ->
  nth_error x idx = Some xi ->
  let dist j :=
    PrimFloat.sqrt
      (Z2float (count_nonzero xi + count_nonzero (nth j x [])
                - 2 * agree_nonzero xi (nth j x []))) in
  (exists j, (j < length x)%nat /\ j <> idx /\ (dist j <? 100)%float = true) ->
  exists b,
    search_nearest x idx
    = Ok {| short := dist b; nearest_a := idx; nearest_b := b |}
    /\ (b < length x)%nat /\ b <> idx
    /\ (dist b <? 100)%float = true
    /\ (forall j, (j < length x)%nat -> j <> idx -> (dist j <? dist b)%float = false)
    /\ (forall j, (j < b)%nat -> j <> idx -> dist j <> dist b).
Proof.
  intros Hrect Hi dist. apply (search_nearest_minimum x idx xi dist Hi).
  intros j xj Hj. unfold dist.
  rewrite (nth_error_nth x j [] Hj).
  rewrite Forall_forall in Hrect.
  apply euc_bit_eq.
  rewrite (Hrect xi (nth_error_In x idx Hi)), (Hrect xj (nth_error_In x j Hj)).
  lia.
Qed.

(** ** The sum of [np.average]

    [pairwise_sum] does not depend on its fuel once the fuel is the
    length of the array: each cut leaves two strictly shorter parts. *)

Lemma pairwise_sum_eq (fuel : nat) (a : list float) :
  pairwise_sum fuel a
  = if (length a <? 8)%nat then fold_left PrimFloat.add a 0%float
    else if (length a <=? 128)%nat then
      fold_left PrimFloat.add (skipn (length a - length a mod 8) a)
        (sum8 (add_blocks (length a / 8 - 1) (firstn 8 a) (skipn 8 a)))
    else
      match fuel with
      | O => 0%float
      | S fuel' =>
          (pairwise_sum fuel' (firstn (length a / 2 - (length a / 2) mod 8) a)
           + pairwise_sum fuel' (skipn (length a / 2 - (length a / 2) mod 8) a))%float
      end.
Proof. destruct fuel; reflexivity. Qed.

Lemma pairwise_sum_fuel (fuel : nat) :
  forall fuel' a, (length a <= fuel)%nat -> (length a <= fuel')%nat ->
  pairwise_sum fuel a = pairwise_sum fuel' a.
Proof.
  induction fuel as [|fuel IH]; intros fuel' a H H'.
  - destruct a; [|simpl in H; lia]. destruct fuel'; reflexivity.
  - rewrite (pairwise_sum_eq (S fuel)), (pairwise_sum_eq fuel').
    destruct (length a <? 8)%nat; [reflexivity|].
    destruct (Nat.leb_spec (length a) 128) as [|Hbig]; [reflexivity|].
    destruct fuel' as [|fuel']; [lia|].
    pose proof (Nat.mod_upper_bound (length a / 2) 8 ltac:(lia)) as Hm.
    assert (Hhalf : (64 <= length a / 2 < length a)%nat).
    { split; [apply Nat.div_le_lower_bound; lia | apply Nat.div_lt; lia]. }
    rewrite (IH fuel' (firstn _ a)), (IH fuel' (skipn _ a));
      rewrite ?length_firstn, ?length_skipn; try lia.
    reflexivity.
Qed.

(** From 8 items on, the sum is not the sum from left to right: the
    average of these 8 values is the binary64 nearest to 41/48, which
    the sum from left to right misses by one unit in the last place. *)
Example np_average_pairwise :
  np_average [1; 1; 1 / 3; 1; 1; 1; 1; 0.5]%float
  = 0x1.b555555555555p-1%float
  /\ (fold_left PrimFloat.add [1; 1; 1 / 3; 1; 1; 1; 1; 0.5] 0 / 8)%float
     = 0x1.b555555555556p-1%float.
Proof. split; vm_compute; reflexivity. Qed.

(** The value returned is the average of the values the rows
    contribute, in row order. *)
Lemma nearest_average_tanimoto_mean (x : matrix) (ts : list float) :
  Forall2 (fun idx t => shortest_tanimoto x idx = Ok t) (enumerate x) ts ->
  nearest_average_tanimoto x = Ok (np_average ts).
Proof.
  intros H. unfold nearest_average_tanimoto, tani_loop.
  assert (Hloop : forall acc,
    for_each (fun tani idx => t <- shortest_tanimoto x idx ;; Ok (tani ++ [t]))
      (enumerate x) acc = Ok (acc ++ ts)).
  { induction H as [|i t l ts' Hi _ IH]; intros acc; cbn [for_each].
    - rewrite app_nil_r. reflexivity.
    - rewrite Hi. cbn [bind]. rewrite IH, <- app_assoc. reflexivity. }
  rewrite Hloop. reflexivity.
Qed.

(** The third scenario of the specification: rows 0 and 1 are each
    other's nearest row, row 2 is nearest to row 0, and the result is
    the mean of 0.5, 0.5 and 0. *)
Example nearest_average_tanimoto_three_rows :
  search_nearest [[1; 0; 0]; [1; 1; 0]; [0; 0; 1]] 0
  = Ok {| short := 1; nearest_a := 0; nearest_b := 1 |}
  /\ search_nearest [[1; 0; 0]; [1; 1; 0]; [0; 0; 1]] 1
     = Ok {| short := 1; nearest_a := 1; nearest_b := 0 |}
  /\ search_nearest [[1; 0; 0]; [1; 1; 0]; [0; 0; 1]] 2
     = Ok {| short := PrimFloat.sqrt 2; nearest_a := 2; nearest_b := 0 |}
  /\ nearest_average_tanimoto [[1; 0; 0]; [1; 1; 0]; [0; 0; 1]]
     = Ok (np_average [0.5; 0.5; 0])%float.
Proof. repeat split. Qed.

Lemma far_rows_distance :
  euc_bit all_ones all_zeros = Ok 100%float
  /\ euc_bit all_zeros all_ones = Ok 100%float.
Proof.
  split; rewrite euc_bit_eq
    by (unfold all_ones, all_zeros; rewrite !repeat_length; lia);
    vm_compute; reflexivity.
Qed.

Lemma far_rows_far (idx : nat) (xi : vec) :
  nth_error far_rows idx = Some xi ->
  forall jdx xj, jdx <> idx -> nth_error far_rows jdx = Some xj ->
                 exists d, euc_bit xi xj = Ok d /\ (d <? 100)%float = false.
Proof.
  intros Hi jdx xj Hne Hj. exists 100%float.
  destruct far_rows_distance as [H01 H10].
  destruct idx as [|[|idx]]; destruct jdx as [|[|jdx]].
  - exfalso. apply Hne. reflexivity.
  - injection Hi as <-. injection Hj as <-. split; [exact H01 | reflexivity].
  - destruct jdx; discriminate Hj.
  - injection Hi as <-. injection Hj as <-. split; [exact H10 | reflexivity].
  - exfalso. apply Hne. reflexivity.
  - destruct jdx; discriminate Hj.
  - destruct idx; discriminate Hi.
  - destruct idx; discriminate Hi.
  - destruct idx; discriminate Hi.
Qed.

Lemma bind_Ok {A B : Type} (v : A) (k : A -> result B) :
  (x <- Ok v ;; k x) = k v.
Proof. reflexivity. Qed.

(** The two turns of the outer loop on a feature matrix of two rows. *)
Lemma nearest_average_tanimoto_two_rows (x0 x1 : vec) :
  nearest_average_tanimoto [x0; x1]
  = (t0 <- shortest_tanimoto [x0; x1] 0 ;;
     t1 <- shortest_tanimoto [x0; x1] 1 ;;
     Ok (np_average [t0; t1])).
Proof.
  unfold nearest_average_tanimoto, tani_loop. cbn [enumerate length seq for_each].
  destruct (shortest_tanimoto [x0; x1] 0) as [t0|]; cbn [bind]; [|reflexivity].
  destruct (shortest_tanimoto [x0; x1] 1) as [t1|]; reflexivity.
Qed.

Lemma bit_tanimoto_far_rows :
  bit_tanimoto all_ones all_ones = Ok 1%float
  /\ bit_tanimoto all_ones all_zeros = Ok 0%float
  /\ bit_tanimoto all_zeros all_ones = Ok 0%float.
Proof.
  split; [|split]; rewrite bit_tanimoto_eq
    by (unfold all_ones, all_zeros; rewrite !repeat_length; lia);
    vm_compute; reflexivity.
Qed.

(** ** The list [tani]

    The outer loop appends one value for every row, in row order, and
    leaves at the first row whose value cannot be computed. *)

Lemma tani_loop_acc (x : matrix) (l : list nat) :
  forall acc tani,
    for_each (fun tani idx => t <- shortest_tanimoto x idx ;; Ok (tani ++ [t]))
      l acc = Ok tani ->
    exists ts, tani = acc ++ ts
               /\ Forall2 (fun idx t => shortest_tanimoto x idx = Ok t) l ts.
Proof.
  induction l as [|i l IH]; intros acc tani H; cbn [for_each] in H.
  - exists []. split; [rewrite app_nil_r; congruence | constructor].
  - destruct (shortest_tanimoto x i) as [t|e] eqn:Et; cbn [bind] in H;
      [|discriminate].
    destruct (IH _ _ H) as (ts & -> & Hts).
    exists (t :: ts).
    split; [rewrite <- app_assoc; reflexivity | constructor; assumption].
Qed.

Lemma tani_loop_items (x : matrix) (tani : list float) :
  tani_loop x = Ok tani ->
  Forall2 (fun idx t => shortest_tanimoto x idx = Ok t) (enumerate x) tani.
Proof.
  intros H. destruct (tani_loop_acc x (enumerate x) [] tani H) as (ts & -> & Hts).
  exact Hts.
Qed.

Lemma Forall2_nth_error {A B : Type} (R : A -> B -> Prop) (l : list A)
  (l' : list B) :
  Forall2 R l l' ->
  forall i a, nth_error l i = Some a ->
              exists b, nth_error l' i = Some b /\ R a b.
Proof.
  induction 1 as [|a0 b0 l l' Hab _ IH]; intros [|i] a Hi; simpl in Hi;
    try discriminate.
  - exists b0. split; [reflexivity | congruence].
  - apply IH. exact Hi.
Qed.

Lemma nth_error_enumerate {A : Type} (x : list A) (idx : nat) :
  (idx < length x)%nat -> nth_error (enumerate x) idx = Some idx.
Proof.
  intros H. unfold enumerate.
  rewrite (nth_error_nth' _ 0%nat) by (rewrite length_seq; exact H).
  rewrite seq_nth by exact H. reflexivity.
Qed.

Lemma for_each_raise {S I : Type} (body : S -> I -> result S) (l : list I)
  (i : I) :
  In i l -> (forall s, exists e, body s i = Raise e) ->
  forall s, exists e, for_each body l s = Raise e.
Proof.
  intros Hin Hi. induction l as [|j l IH]; intros s; [contradiction|].
  cbn [for_each]. destruct Hin as [->|Hin].
  - destruct (Hi s) as [e ->]. exists e. reflexivity.
  - destruct (body s j) as [s'|e]; cbn [bind];
      [apply IH; exact Hin | exists e; reflexivity].
Qed.

(** The item [idx] of [tani] is the value computed for row [idx]; when
    that value cannot be computed, [nearest_average_tanimoto] raises. *)
Lemma tani_loop_item (x : matrix) (idx : nat) (tani : list float) :
  (idx < length x)%nat -> tani_loop x = Ok tani ->
  length tani = length x
  /\ exists t, nth_error tani idx = Some t /\ shortest_tanimoto x idx = Ok t.
Proof.
  intros Hidx H. apply tani_loop_items in H. split.
  - rewrite <- (Forall2_length H). unfold enumerate. apply length_seq.
  - apply (Forall2_nth_error _ _ _ H idx idx). apply nth_error_enumerate.
    exact Hidx.
Qed.

Lemma tani_loop_total (x : matrix) :
  (forall i, (i < length x)%nat -> exists t, shortest_tanimoto x i = Ok t) ->
  exists tani, tani_loop x = Ok tani.
Proof.
  intros H. unfold tani_loop. apply for_each_total.
  intros tani i Hi. unfold enumerate in Hi. apply in_seq in Hi.
  destruct (H i ltac:(lia)) as [t ->]. eexists. reflexivity.
Qed.

Lemma nearest_average_tanimoto_raises (x : matrix) (idx : nat) (e : exn) :
  (idx < length x)%nat -> shortest_tanimoto x idx = Raise e ->
  exists e', nearest_average_tanimoto x = Raise e'.
Proof.
  intros Hidx He. unfold nearest_average_tanimoto, tani_loop.
  destruct (for_each_raise
              (fun tani i => t <- shortest_tanimoto x i ;; Ok (tani ++ [t]))
              (enumerate x) idx) with (s := @nil float) as [e' E].
  - unfold enumerate. apply in_seq. lia.
  - intros s. exists e. rewrite He. reflexivity.
  - exists e'. rewrite E. reflexivity.
Qed.

(** C10, as the code has it.  If no other row [jdx <> idx] is at a
    [euc_bit] distance below 100 from row [idx], the search ends with
    [short], [a] and [b] at their initial values 100, 0 and 0, and the
    value computed for [idx] is [bit_tanimoto x[0] x[0]].  When the outer
    loop completes, as it does when the value of every row can be
    computed, that value is the item [idx] of the list [tani] whose
    average [nearest_average_tanimoto] returns; when
    [bit_tanimoto x[0] x[0]] raises, [nearest_average_tanimoto] raises.
    The pair is row 0 with itself: it involves row [idx] only when
    [idx] is 0, and never row [idx] and another row. *)
Theorem nearest_average_tanimoto_no_neighbour (x : matrix) (idx : nat)
  (xi : vec) :
  nth_error x idx = Some xi ->
  (forall jdx xj, jdx <> idx -> nth_error x jdx = Some xj ->
                  exists d, euc_bit xi xj = Ok d /\ (d <? 100)%float = false) ->
  exists x0 st,
    nth_error x 0 = Some x0
    /\ search_nearest x idx = Ok st
    /\ short st = 100%float /\ nearest_a st = 0%nat /\ nearest_b st = 0%nat
    /\ (idx <> 0%nat -> nearest_a st <> idx /\ nearest_b st <> idx)
    /\ shortest_tanimoto x idx = bit_tanimoto x0 x0
    /\ (forall tani, tani_loop x = Ok tani ->
          nearest_average_tanimoto x = Ok (np_average tani)
          /\ length tani = length x
          /\ exists t, nth_error tani idx = Some t
                       /\ bit_tanimoto x0 x0 = Ok t)
    /\ ((forall i, (i < length x)%nat ->
                   exists t, shortest_tanimoto x i = Ok t) ->
        exists tani, tani_loop x = Ok tani)
    /\ (forall e, bit_tanimoto x0 x0 = Raise e ->
          exists e', nearest_average_tanimoto x = Raise e').
Proof.
  intros Hi Hfar.
  assert (Hidx : (idx < length x)%nat)
    by (apply nth_error_Some; rewrite Hi; discriminate).
  destruct x as [|x0 x']; [destruct idx; discriminate|].
  pose proof (shortest_tanimoto_unchanged (x0 :: x') idx xi x0 Hi eq_refl Hfar)
    as Hst.
  exists x0, {| short := 100; nearest_a := 0; nearest_b := 0 |}.
  split; [reflexivity|].
  split; [apply (search_unchanged _ idx xi Hi Hfar)|].
  split; [reflexivity|]. split; [reflexivity|]. split; [reflexivity|].
  split; [|split; [exact Hst|split; [|split; [apply tani_loop_total|]]]].
  - cbn [nearest_a nearest_b]. intros Hne.
    split; intros E; apply Hne; symmetry; exact E.
  - intros tani Htani.
    destruct (tani_loop_item _ idx tani Hidx Htani) as (Hlen & t & Ht & Et).
    split; [unfold nearest_average_tanimoto; rewrite Htani; reflexivity|].
    split; [exact Hlen|].
    exists t. split; [exact Ht|]. rewrite <- Hst. exact Et.
  - intros e He. apply (nearest_average_tanimoto_raises _ idx e Hidx).
    rewrite Hst. exact He.
Qed.

Lemma tani_loop_far_rows : tani_loop far_rows = Ok [1; 1]%float.
Proof.
  destruct bit_tanimoto_far_rows as (Hself & _ & _).
  unfold tani_loop, far_rows. cbn [enumerate length seq for_each].
  rewrite (shortest_tanimoto_unchanged [all_ones; all_zeros] 0 all_ones all_ones
             eq_refl eq_refl (far_rows_far 0 all_ones eq_refl)).
  rewrite Hself, bind_Ok.
  rewrite (shortest_tanimoto_unchanged [all_ones; all_zeros] 1 all_zeros all_ones
             eq_refl eq_refl (far_rows_far 1 all_zeros eq_refl)).
  rewrite Hself, bind_Ok. reflexivity.
Qed.

Lemma nearest_average_tanimoto_no_neighbour_witness :
  exists x0 st,
    nth_error far_rows 0 = Some x0
    /\ search_nearest far_rows 1 = Ok st
    /\ short st = 100%float /\ nearest_a st = 0%nat /\ nearest_b st = 0%nat
    /\ (1%nat <> 0%nat -> nearest_a st <> 1%nat /\ nearest_b st <> 1%nat)
    /\ shortest_tanimoto far_rows 1 = bit_tanimoto x0 x0
    /\ (forall tani, tani_loop far_rows = Ok tani ->
          nearest_average_tanimoto far_rows = Ok (np_average tani)
          /\ length tani = length far_rows
          /\ exists t, nth_error tani 1 = Some t
                       /\ bit_tanimoto x0 x0 = Ok t)
    /\ ((forall i, (i < length far_rows)%nat ->
                   exists t, shortest_tanimoto far_rows i = Ok t) ->
        exists tani, tani_loop far_rows = Ok tani)
    /\ (forall e, bit_tanimoto x0 x0 = Raise e ->
          exists e', nearest_average_tanimoto far_rows = Raise e').
Proof.
  exact (nearest_average_tanimoto_no_neighbour far_rows 1 all_zeros eq_refl
           (far_rows_far 1 all_zeros eq_refl)).
Defined.

(** C10, as the specification states it, fails for row 0.  The only
    other row of [far_rows] is at distance 100 from row 0, which is not
    below 100; the value appended for row 0 is [bit_tanimoto x[0] x[0]],
    the Tanimoto value of a pair in which both members are row 0. *)
Lemma nearest_average_tanimoto_row_0_pairs_itself :
  nth_error far_rows 0 = Some all_ones
  /\ euc_bit all_ones all_zeros = Ok 100%float
  /\ (100 <? 100)%float = false
  /\ search_nearest far_rows 0
     = Ok {| short := 100; nearest_a := 0; nearest_b := 0 |}
  /\ shortest_tanimoto far_rows 0 = bit_tanimoto all_ones all_ones
  /\ bit_tanimoto all_ones all_ones = Ok 1%float
  /\ tani_loop far_rows = Ok [1; 1]%float.
Proof.
  destruct far_rows_distance as [H01 _].
  destruct bit_tanimoto_far_rows as (Hself & _ & _).
  split; [reflexivity|]. split; [exact H01|]. split; [reflexivity|].
  split; [apply (search_unchanged far_rows 0 all_ones eq_refl
                   (far_rows_far 0 all_ones eq_refl))|].
  split; [apply (shortest_tanimoto_unchanged far_rows 0 all_ones all_ones
                   eq_refl eq_refl (far_rows_far 0 all_ones eq_refl))|].
  split; [exact Hself | exact tani_loop_far_rows].
Qed.

(** C2. The rows of [far_rows] are each other's only neighbour, at
    [euc_bit] distance exactly 100, which is not below the initial value
    of [short]; their [bit_tanimoto] is 0, so the mean over the nearest
    pairs is 0.  [nearest_average_tanimoto] returns 1.0, the mean of
    [bit_tanimoto x[0] x[0]] taken twice. *)
Theorem nearest_average_tanimoto_far_rows :
  nearest_average_tanimoto far_rows = Ok 1%float
  /\ euc_bit all_ones all_zeros = Ok 100%float
  /\ euc_bit all_zeros all_ones = Ok 100%float
  /\ bit_tanimoto all_ones all_zeros = Ok 0%float
  /\ bit_tanimoto all_zeros all_ones = Ok 0%float.
Proof.
  destruct far_rows_distance as [H01 H10].
  destruct bit_tanimoto_far_rows as (Hself & T01 & T10).
  split; [|split; [exact H01 | split; [exact H10 | split; [exact T01 | exact T10]]]].
  unfold far_rows. rewrite nearest_average_tanimoto_two_rows.
  rewrite (shortest_tanimoto_unchanged [all_ones; all_zeros] 0 all_ones all_ones
             eq_refl eq_refl (far_rows_far 0 all_ones eq_refl)).
  rewrite (shortest_tanimoto_unchanged [all_ones; all_zeros] 1 all_zeros all_ones
             eq_refl eq_refl (far_rows_far 1 all_zeros eq_refl)).
  rewrite Hself, !bind_Ok. reflexivity.
Qed.

Example tanimoto_broadcast_error :
  tanimoto [1; 0; 1] [1; 0]
  = Raise (ValueError
             "operands could not be broadcast together with shapes (3,) (2,) ")
  /\ tanimoto [1; 0] [1; 0; 1]
     = Raise (ValueError
                "operands could not be broadcast together with shapes (2,) (3,) ").
Proof. split; reflexivity. Qed.

Lemma broadcast_raises (f : Z -> Z -> Z) (a b : vec) :
  length a <> length b -> length a <> 1%nat -> length b <> 1%nat ->
  broadcast f a b = Raise (broadcast_error (length a) (length b)).
Proof.
  intros Hab Ha Hb. unfold broadcast.
  destruct (Nat.eqb_spec (length a) (length b)); [contradiction|].
  destruct a as [|x [|x' a']]; destruct b as [|y [|y' b']];
    try reflexivity; exfalso; simpl in *; lia.
Qed.




(* ================================================================== *)
(** * Further properties of the bit-vector metrics *)

Lemma agree_nonzero_comm (a : vec) :
  forall b, agree_nonzero a b = agree_nonzero b a.
Proof.
  unfold agree_nonzero, len.
  induction a as [|x a IH]; intros [|y b]; try reflexivity.
  specialize (IH b). cbn [combine filter fst snd].
  rewrite (Z.eqb_sym y x).
  destruct (Z.eqb_spec x y) as [->|Hxy]; cbn [andb].
  - destruct (negb (y =? 0)); cbn [length]; lia.
  - exact IH.
Qed.

(** The counting loop keeps [0 <= c <= a_feat] and [c <= b_feat]: the
    power 0.5 of [euc_bit] is never taken of a negative number, and the
    numerator of [bit_tanimoto] never exceeds its denominator. *)
Theorem intersection_count_bounds (a b : vec) (c : Z) :
  intersection a b = Ok c ->
  0 <= c <= count_nonzero a
  /\ c <= count_nonzero b
  /\ 0 <= count_nonzero a + count_nonzero b - 2 * c
  /\ 0 <= c <= count_nonzero a + count_nonzero b - c.
Proof.
  intros H. destruct (Nat.le_gt_cases (length a) (length b)) as [Hle|Hgt].
  - rewrite intersection_eq in H by exact Hle.
    assert (c = agree_nonzero a b) by congruence. subst c.
    pose proof (agree_nonzero_bounds a b). lia.
  - rewrite intersection_raises in H by exact Hgt. discriminate.
Qed.

Lemma intersection_count_bounds_witness :
  0 <= 1 <= count_nonzero [1; 1; 0]
  /\ 1 <= count_nonzero [1; 0; 0; 1]
  /\ 0 <= count_nonzero [1; 1; 0] + count_nonzero [1; 0; 0; 1] - 2 * 1
  /\ 0 <= 1 <= count_nonzero [1; 1; 0] + count_nonzero [1; 0; 0; 1] - 1.
Proof.
  exact (intersection_count_bounds [1; 1; 0] [1; 0; 0; 1] 1 eq_refl).
Defined.

(** [euc_bit] and [bit_tanimoto] do not depend on the order of their
    arguments when the two vectors have the same length. *)
Theorem euc_bit_bit_tanimoto_symmetric (a b : vec) :
  length a = length b ->
  euc_bit a b = euc_bit b a /\ bit_tanimoto a b = bit_tanimoto b a.
Proof.
  intros Hlen.
  rewrite (euc_bit_eq a b), (euc_bit_eq b a) by lia.
  rewrite (bit_tanimoto_eq a b), (bit_tanimoto_eq b a) by lia.
  rewrite (agree_nonzero_comm b a).
  rewrite (Z.add_comm (count_nonzero b) (count_nonzero a)).
  split; reflexivity.
Qed.

Lemma euc_bit_bit_tanimoto_symmetric_witness :
  euc_bit [1; 1; 0] [0; 1; 1] = euc_bit [0; 1; 1] [1; 1; 0]
  /\ bit_tanimoto [1; 1; 0] [0; 1; 1] = bit_tanimoto [0; 1; 1] [1; 1; 0].
Proof.
  exact (euc_bit_bit_tanimoto_symmetric [1; 1; 0] [0; 1; 1] eq_refl).
Defined.

(** The distance of a vector to itself is exactly 0.0, for every
    vector, the empty one included. *)
Theorem euc_bit_self_distance (a : vec) : euc_bit a a = Ok 0%float.
Proof.
  rewrite euc_bit_eq by lia. rewrite agree_nonzero_self.
  replace (count_nonzero a + count_nonzero a - 2 * count_nonzero a) with 0
    by lia.
  reflexivity.
Qed.

Lemma broadcast_comm (f : Z -> Z -> Z) (a b : vec) :
  (forall x y, f x y = f y x) ->
  length a = length b \/ length a = 1%nat \/ length b = 1%nat ->
  broadcast f a b = broadcast f b a.
Proof.
  intros Hf Hshape. unfold broadcast. rewrite (Nat.eqb_sym (length b) (length a)).
  destruct (Nat.eqb_spec (length a) (length b)) as [Hlen|Hlen].
  - rewrite (map2_comm f a Hf b). reflexivity.
  - destruct a as [|x [|x' a]]; destruct b as [|y [|y' b]];
      try reflexivity; try (exfalso; apply Hlen; reflexivity);
      try (exfalso; simpl in Hshape, Hlen; lia);
      f_equal; apply map_ext; intros v; apply Hf.
Qed.

(** [tanimoto] does not depend on the order of its arguments when
    their shapes broadcast (equal lengths, or one of them of length 1):
    both orders return the same value or raise the same exception.  When
    the shapes do not broadcast, both orders raise numpy's [ValueError],
    whose message names the two shapes in the order of the operands. *)
Theorem tanimoto_symmetric (a b : vec) :
  (length a = length b \/ length a = 1%nat \/ length b = 1%nat ->
   tanimoto a b = tanimoto b a)
  /\ (length a <> length b -> length a <> 1%nat -> length b <> 1%nat ->
      tanimoto a b = Raise (broadcast_error (length a) (length b))
      /\ tanimoto b a = Raise (broadcast_error (length b) (length a))).
Proof.
  split.
  - intros Hshape. unfold tanimoto.
    rewrite (broadcast_comm Z.mul a b Z.mul_comm Hshape).
    destruct (broadcast Z.mul b a) as [ab|e]; [|reflexivity]. cbn [bind].
    replace (int_add (py_sum (square b)) (py_sum (square a)))
      with (int_add (py_sum (square a)) (py_sum (square b))); [reflexivity|].
    unfold int_add, int_op. rewrite orb_comm, Z.add_comm. reflexivity.
  - intros Hab Ha Hb. unfold tanimoto.
    rewrite (broadcast_raises Z.mul a b Hab Ha Hb).
    rewrite (broadcast_raises Z.mul b a (not_eq_sym Hab) Hb Ha).
    split; reflexivity.
Qed.

Lemma count_nonzero_all_zero (a : vec) : all_zero a <-> count_nonzero a = 0.
Proof.
  unfold all_zero, count_nonzero, len. induction a as [|x a IH].
  - split; [reflexivity | constructor].
  - cbn [filter]. split.
    + intros H. inversion H as [|? ? Hx Ha]; subst.
      cbn [Z.eqb negb]. apply IH. exact Ha.
    + intros H. destruct (Z.eqb_spec x 0) as [->|Hx]; cbn [negb] in H.
      * constructor; [reflexivity | apply IH; exact H].
      * cbn [length] in H. lia.
Qed.

(** [bit_tanimoto] divides by zero exactly when neither vector has a
    nonzero entry ([a] not longer than [b]): it then raises
    [ZeroDivisionError], and otherwise it returns a value. *)
Theorem bit_tanimoto_zero_division (a b : vec) :
  (length a <= length b)%nat ->
  (bit_tanimoto a b = Raise ZeroDivisionError <-> all_zero a /\ all_zero b)
  /\ (~ (all_zero a /\ all_zero b) -> exists v, bit_tanimoto a b = Ok v).
Proof.
  intros Hlen. rewrite bit_tanimoto_eq by exact Hlen.
  rewrite !count_nonzero_all_zero.
  pose proof (agree_nonzero_bounds a b) as Hb.
  unfold py_truediv.
  destruct (Z.eqb_spec (count_nonzero a + count_nonzero b - agree_nonzero a b) 0)
    as [Hz|Hnz].
  - split; [split; [intros _; lia | reflexivity] | intros Hn; exfalso; apply Hn; lia].
  - split; [split; [discriminate | intros [Ha Hb0]; exfalso; apply Hnz; lia]|].
    intros _. eexists; reflexivity.
Qed.

Lemma bit_tanimoto_zero_division_witness :
  (bit_tanimoto [0; 0] [0; 0; 0] = Raise ZeroDivisionError
   <-> all_zero [0; 0] /\ all_zero [0; 0; 0])
  /\ (~ (all_zero [0; 0] /\ all_zero [0; 0; 0]) ->
      exists v, bit_tanimoto [0; 0] [0; 0; 0] = Ok v).
Proof.
  apply (bit_tanimoto_zero_division [0; 0] [0; 0; 0]). simpl. lia.
Defined.

Lemma sum_square_binary (a : vec) :
  binary a -> fold_right Z.add 0 (square a) = count_nonzero a.
Proof.
  unfold binary, square, count_nonzero, len.
  induction 1 as [|x a Hx _ IH]; [reflexivity|].
  cbn [map fold_right filter]. rewrite IH.
  destruct Hx as [->| ->]; cbn [Z.eqb negb length]; lia.
Qed.

Lemma dot_binary (a : vec) :
  binary a -> forall b, binary b -> dot a b = agree_nonzero a b.
Proof.
  unfold binary, dot, agree_nonzero, len.
  induction 1 as [|x a Hx _ IH]; intros b Hb; [reflexivity|].
  destruct Hb as [|y b Hy Hb]; [reflexivity|].
  cbn [map2 fold_right combine filter fst snd]. rewrite (IH b Hb).
  destruct Hx as [->| ->]; destruct Hy as [->| ->];
    cbn [Z.eqb Pos.eqb andb negb length]; lia.
Qed.

Lemma sq_dist_binary (a : vec) :
  binary a -> forall b, binary b -> length a = length b ->
  count_nonzero a + count_nonzero b - 2 * agree_nonzero a b = sq_dist a b.
Proof.
  unfold binary, sq_dist, agree_nonzero, count_nonzero, len.
  induction 1 as [|x a Hx _ IH]; intros b Hb Hlen.
  - destruct b; [reflexivity | discriminate].
  - destruct Hb as [|y b Hy Hb]; [discriminate|].
    specialize (IH b Hb ltac:(simpl in Hlen; lia)).
    cbn [map2 fold_right combine filter fst snd]. rewrite <- IH.
    destruct Hx as [->| ->]; destruct Hy as [->| ->];
      cbn [Z.eqb Pos.eqb andb negb length];
      [change ((0 - 0) ^ 2) with 0 | change ((0 - 1) ^ 2) with 1
       | change ((1 - 0) ^ 2) with 1 | change ((1 - 1) ^ 2) with 0];
      lia.
Qed.

(** On bit vectors of the same length [euc_bit] is the Euclidean
    distance as the code computes it: the power 0.5 of the sum of the
    squared differences, the number of positions at which the vectors
    differ, whatever float the power function [pw] of the platform
    returns for it. *)
Theorem euc_bit_euclidean (pw : Z -> float) (a b : vec) :
  binary a -> binary b -> length a = length b ->
  euc_bit_with pw a b = Ok (pw (sq_dist a b)).
Proof.
  intros Ha Hb Hlen. rewrite euc_bit_with_eq by lia.
  rewrite (sq_dist_binary a Ha b Hb Hlen). reflexivity.
Qed.

Lemma euc_bit_euclidean_witness :
  euc_bit_with pow_half [1; 1; 0; 1] [0; 1; 1; 1]
  = Ok (pow_half (sq_dist [1; 1; 0; 1] [0; 1; 1; 1])).
Proof.
  exact (euc_bit_euclidean pow_half [1; 1; 0; 1] [0; 1; 1; 1]
           (binary_intro [1; 1; 0; 1] eq_refl)
           (binary_intro [0; 1; 1; 1] eq_refl) eq_refl).
Defined.

(** On bit vectors of the same length that are not both all zero,
    [tanimoto] and [bit_tanimoto] return the same value. *)
Theorem tanimoto_bit_tanimoto_agree (a b : vec) :
  binary a -> binary b -> length a = length b ->
  ~ (all_zero a /\ all_zero b) ->
  tanimoto a b = bit_tanimoto a b.
Proof.
  intros Ha Hb Hlen Hnz.
  assert (Hden : count_nonzero a + count_nonzero b - agree_nonzero a b <> 0).
  { intros Hz. apply Hnz. rewrite !count_nonzero_all_zero.
    pose proof (agree_nonzero_bounds a b). lia. }
  rewrite bit_tanimoto_eq by lia. unfold py_truediv.
  destruct (Z.eqb_spec (count_nonzero a + count_nonzero b - agree_nonzero a b) 0)
    as [|_]; [contradiction|].
  unfold tanimoto, broadcast. rewrite Hlen, Nat.eqb_refl. cbn [bind].
  rewrite !py_sum_eq.
  pose proof (dot_binary a Ha b Hb) as Hdot. unfold dot in Hdot.
  pose proof (sum_square_binary a Ha) as Hsa.
  pose proof (sum_square_binary b Hb) as Hsb.
  pose proof (map2_length Z.mul a b Hlen) as Lab.
  destruct a as [|x a]; [|destruct b as [|y b]; [discriminate|]].
  - destruct b; [|discriminate].
    exfalso. apply Hnz. split; constructor.
  - destruct (map2 Z.mul (x :: a) (y :: b)) as [|u l] eqn:Eab; [discriminate|].
    destruct (square (x :: a)) as [|sa la] eqn:Esa; [discriminate|].
    destruct (square (y :: b)) as [|sb lb] eqn:Esb; [discriminate|].
    unfold int_truediv, int_sub, int_add, int_op. cbn [is_np int_val orb bind].
    rewrite Hdot, Hsa, Hsb.
    rewrite np_true_divide_nonzero by exact Hden. reflexivity.
Qed.

Lemma all_zero_elim (a : vec) : all_zero a -> forall v, In v a -> v = 0.
Proof. unfold all_zero. intros H. apply Forall_forall. exact H. Qed.

Lemma tanimoto_bit_tanimoto_agree_witness :
  tanimoto [1; 1; 0; 1] [0; 1; 1; 1] = bit_tanimoto [1; 1; 0; 1] [0; 1; 1; 1].
Proof.
  apply (tanimoto_bit_tanimoto_agree [1; 1; 0; 1] [0; 1; 1; 1]
           (binary_intro [1; 1; 0; 1] eq_refl)
           (binary_intro [0; 1; 1; 1] eq_refl) eq_refl).
  intros [Ha _]. pose proof (all_zero_elim _ Ha 1 (or_introl eq_refl)).
  discriminate.
Defined.

Lemma all_zero_binary (a : vec) : all_zero a -> binary a.
Proof.
  unfold all_zero, binary. intros H.
  eapply Forall_impl; [|exact H]. intros v Hv. left; exact Hv.
Qed.

(** On two all-zero vectors of the same length [tanimoto] divides zero
    by zero: numpy's division returns nan (no exception) when the vectors
    are not empty, and the division of the [int] 0 by the [int] 0 raises
    [ZeroDivisionError] when they are. *)
Theorem tanimoto_all_zero (a b : vec) :
  all_zero a -> all_zero b -> length a = length b ->
  tanimoto a b = match a with
                 | [] => Raise ZeroDivisionError
                 | _ :: _ => Ok nan
                 end.
Proof.
  intros Ha Hb Hlen.
  pose proof (dot_binary a (all_zero_binary a Ha) b (all_zero_binary b Hb))
    as Hdot.
  pose proof (sum_square_binary a (all_zero_binary a Ha)) as Hsa.
  pose proof (sum_square_binary b (all_zero_binary b Hb)) as Hsb.
  apply count_nonzero_all_zero in Ha. apply count_nonzero_all_zero in Hb.
  pose proof (agree_nonzero_bounds a b) as Hc.
  assert (Hagree : agree_nonzero a b = 0) by lia.
  rewrite Hagree in Hdot. rewrite Ha in Hsa. rewrite Hb in Hsb.
  unfold dot in Hdot.
  pose proof (map2_length Z.mul a b Hlen) as Lab.
  unfold tanimoto, broadcast. rewrite Hlen, Nat.eqb_refl. cbn [bind].
  rewrite !py_sum_eq.
  destruct a as [|x a]; [destruct b; [reflexivity | discriminate]|].
  destruct b as [|y b]; [discriminate|].
  destruct (map2 Z.mul (x :: a) (y :: b)) as [|u l] eqn:Eab; [discriminate|].
  destruct (square (x :: a)) as [|sa la] eqn:Esa; [discriminate|].
  destruct (square (y :: b)) as [|sb lb] eqn:Esb; [discriminate|].
  unfold int_truediv, int_sub, int_add, int_op. cbn [is_np int_val orb bind].
  rewrite Hdot, Hsa, Hsb. reflexivity.
Qed.

Lemma all_zero_intro (a : vec) :
  forallb (fun v => v =? 0) a = true -> all_zero a.
Proof.
  unfold all_zero. intros H. apply Forall_forall. intros v Hv.
  rewrite forallb_forall in H. apply Z.eqb_eq. exact (H v Hv).
Qed.

Lemma tanimoto_all_zero_witness : tanimoto [0; 0; 0] [0; 0; 0] = Ok nan.
Proof.
  exact (tanimoto_all_zero [0; 0; 0] [0; 0; 0]
           (all_zero_intro [0; 0; 0] eq_refl)
           (all_zero_intro [0; 0; 0] eq_refl) eq_refl).
Defined.

Lemma dot_repeat (x y : Z) (n : nat) :
  dot (repeat x n) (repeat y n) = Z.of_nat n * (x * y).
Proof.
  unfold dot. induction n as [|n IH]; [reflexivity|].
  cbn [repeat map2 fold_right]. rewrite IH. lia.
Qed.

Lemma rsub_repeat (k x : Z) (n : nat) : rsub k (repeat x n) = repeat (k - x) n.
Proof. unfold rsub. apply map_repeat. Qed.

Lemma Zdiv2float_zero (y : Z) : 0 < y -> Zdiv2float 0 y = 0%float.
Proof. intros Hy. destruct y; try lia. reflexivity. Qed.

(** The two guards of [modified_tanimoto] cover the saturated vectors:
    on a vector of ones and itself, and on a vector of zeros and itself,
    of any length but 0, no division by zero happens and the result is
    exactly 1.0. *)
Theorem modified_tanimoto_saturated (n : nat) :
  (0 < n)%nat ->
  modified_tanimoto (repeat 1 n) (repeat 1 n) = Ok 1%float
  /\ modified_tanimoto (repeat 0 n) (repeat 0 n) = Ok 1%float.
Proof.
  intros Hn.
  rewrite !modified_tanimoto_eq by reflexivity.
  rewrite !rsub_repeat, !dot_repeat. unfold len. rewrite !repeat_length.
  destruct (Z.eqb_spec (Z.of_nat n) 0) as [|_]; [lia|].
  set (N := Z.of_nat n). assert (HN : 0 < N) by (subst N; lia).
  unfold mt_formula.
  replace (N * (1 * 1)) with N by lia.
  replace (N * ((1 - 1) * (1 - 1))) with 0 by lia.
  replace (N * (0 * 0)) with 0 by lia.
  replace (N * ((1 - 0) * (1 - 0))) with N by lia.
  rewrite Z.eqb_refl.
  destruct (Z.eqb_spec 0 N) as [|_]; [lia|].
  replace (N - 0) with N by lia. replace (N - N + 0) with 0 by lia.
  replace (N + N) with (2 * N) by lia.
  rewrite !Zdiv2float_same by lia. rewrite Zdiv2float_zero by lia.
  split; reflexivity.
Qed.

Lemma modified_tanimoto_saturated_witness :
  modified_tanimoto (repeat 1 5) (repeat 1 5) = Ok 1%float
  /\ modified_tanimoto (repeat 0 5) (repeat 0 5) = Ok 1%float.
Proof.
  apply (modified_tanimoto_saturated 5). lia.
Defined.

(* ================================================================== *)
(** * Further properties of the pairwise engine *)



Lemma pairwise_similarity_bit_entry_witness :
  exists M,
    pairwise_similarity_bit [[1; 1; 0]; [1; 0; 0]; [0; 0; 0]] bit_tanimoto = Ok M
    /\ forall i j, (i < 3)%nat -> (j < 3)%nat ->
         entry M i j
         = if Nat.eqb i j then 1%float
           else (nth (Nat.max i j) (nth (Nat.min i j)
                                      [[0; 0.5; 0]; [0; 0; 0]; [0; 0; 0]] []) 0
                 + 0)%float.
Proof.
  apply (pairwise_similarity_bit_entry [[1; 1; 0]; [1; 0; 0]; [0; 0; 0]]
           bit_tanimoto
           (fun i j => nth j (nth i [[0; 0.5; 0]; [0; 0; 0]; [0; 0; 0]] []) 0)%float).
  intros i j fi fj Hlt Hi Hj.
  destruct i as [|[|[|i]]]; destruct j as [|[|[|j]]];
    try (exfalso; lia); try (destruct i; discriminate Hi);
    try (destruct j; discriminate Hj);
    injection Hi as <-; injection Hj as <-; reflexivity.
Defined.

(* ================================================================== *)
(** * Further properties of the dispatcher *)

(** [compute_distance_matrix] returns a matrix only for a metric name
    of the backend, and the matrix is then the backend's, unchanged: no
    other metric name, built-in or not, makes it return. *)
Theorem compute_distance_matrix_returns (sklearn_supported_metrics : list string)
  (pairwise_distances : matrix -> string -> Z -> bool -> result fmatrix)
  (features : matrix) (metric : string) (n_jobs : Z)
  (force_all_finite : bool) (dist : fmatrix) :
  compute_distance_matrix sklearn_supported_metrics pairwise_distances
    features metric n_jobs force_all_finite = Ok dist ->
  str_in metric sklearn_supported_metrics = true
  /\ pairwise_distances features metric n_jobs force_all_finite = Ok dist.
Proof.
  unfold compute_distance_matrix. intros H.
  destruct (str_in metric sklearn_supported_metrics).
  - split; [reflexivity | exact H].
  - destruct (str_in metric built_in_metrics); [|discriminate].
    destruct (dict_getitem function_dict metric); discriminate.
Qed.

Lemma compute_distance_matrix_returns_witness :
  str_in "euclidean" ["euclidean"; "cosine"; "manhattan"]%string = true
  /\ (fun (_ : matrix) (_ : string) (_ : Z) (_ : bool) =>
        Ok [[0; 1]; [1; 0]]%float) [[1; 1; 0]; [1; 0; 0]] "euclidean"%string
       (-1) true
     = Ok [[0; 1]; [1; 0]]%float.
Proof.
  exact (compute_distance_matrix_returns
           ["euclidean"; "cosine"; "manhattan"]%string
           (fun _ _ _ _ => Ok [[0; 1]; [1; 0]]%float)
           [[1; 1; 0]; [1; 0; 0]] "euclidean" (-1) true
           [[0; 1]; [1; 0]]%float eq_refl).
Defined.

(* ================================================================== *)
(** * Further properties of the neighbour aggregator *)

(** Row [i] of a feature matrix whose rows have the same length, when
    another row is at a distance below 100: the search pairs it with
    [nearest x i], and the value appended to [tani] is the
    [bit_tanimoto] of the two rows. *)
Lemma shortest_tanimoto_near (x : matrix) (D i : nat) :
  Forall (fun row => length row = D) x ->
  (i < length x)%nat ->
  (exists j, (j < length x)%nat /\ j <> i
             /\ (row_dist x i j <? 100)%float = true) ->
  ((nearest x i < length x)%nat /\ nearest x i <> i
   /\ (row_dist x i (nearest x i) <? 100)%float = true
   /\ (forall j, (j < length x)%nat -> j <> i ->
                 (row_dist x i j <? row_dist x i (nearest x i))%float = false)
   /\ (forall j, (j < nearest x i)%nat -> j <> i ->
                 row_dist x i j <> row_dist x i (nearest x i)))
  /\ shortest_tanimoto x i
     = bit_tanimoto (nth i x []) (nth (nearest x i) x []).
Proof.
  intros Hrect Hi Hnear.
  pose proof (nth_error_nth' x [] Hi) as Ei.
  assert (Hdist : forall j xj, nth_error x j = Some xj ->
                    euc_bit (nth i x []) xj = Ok (row_dist x i j)).
  { intros j xj Ej. unfold row_dist. rewrite (nth_error_nth x j [] Ej).
    rewrite Forall_forall in Hrect. apply euc_bit_eq.
    rewrite (Hrect _ (nth_error_In x i Ei)), (Hrect xj (nth_error_In x j Ej)).
    lia. }
  destruct (search_nearest_minimum x i (nth i x []) (row_dist x i) Ei Hdist Hnear)
    as (b & Es & Hb & Hbi & Hb100 & Hmin & Hfirst).
  assert (Hnb : nearest x i = b) by (unfold nearest; rewrite Es; reflexivity).
  rewrite Hnb. split; [repeat split; assumption|].
  unfold shortest_tanimoto. rewrite Es. cbn [bind nearest_a nearest_b].
  unfold getitem. rewrite Ei, (nth_error_nth' x [] Hb). reflexivity.
Qed.

(** [nearest_average_tanimoto] on a feature matrix whose rows have the
    same length and each have another row at a distance below 100.  Row
    [i] is paired with another row [nearest x i]: no row other than [i]
    is strictly nearer to [i], and the rows before it (other than [i])
    are at a different distance, so that ties go to the first row found.
    The result is the average, in row order, of the [bit_tanimoto] of
    each row and its nearest row, and an exception of [bit_tanimoto]
    leaves the function. *)
Theorem nearest_average_tanimoto_near_rows (x : matrix) (D : nat) :
  Forall (fun row => length row = D) x ->
  (forall i, (i < length x)%nat ->
     exists j, (j < length x)%nat /\ j <> i
               /\ (row_dist x i j <? 100)%float = true) ->
  (forall i, (i < length x)%nat ->
     (nearest x i < length x)%nat /\ nearest x i <> i
     /\ (row_dist x i (nearest x i) <? 100)%float = true
     /\ (forall j, (j < length x)%nat -> j <> i ->
                   (row_dist x i j <? row_dist x i (nearest x i))%float = false)
     /\ (forall j, (j < nearest x i)%nat -> j <> i ->
                   row_dist x i j <> row_dist x i (nearest x i)))
  /\ nearest_average_tanimoto x
     = (tani <- for_each
                  (fun tani i =>
                     t <- bit_tanimoto (nth i x []) (nth (nearest x i) x []) ;;
                     Ok (tani ++ [t]))
                  (enumerate x) [] ;;
        Ok (np_average tani)).
Proof.
  intros Hrect Hnear. split.
  - intros i Hi. apply (shortest_tanimoto_near x D i Hrect Hi (Hnear i Hi)).
  - unfold nearest_average_tanimoto, tani_loop.
    rewrite (for_each_ext
               (fun tani idx => t <- shortest_tanimoto x idx ;; Ok (tani ++ [t]))
               (fun tani i =>
                  t <- bit_tanimoto (nth i x []) (nth (nearest x i) x []) ;;
                  Ok (tani ++ [t]))); [reflexivity|].
    intros tani i Hi. unfold enumerate in Hi. apply in_seq in Hi.
    destruct (shortest_tanimoto_near x D i Hrect ltac:(lia) (Hnear i ltac:(lia)))
      as [_ ->].
    reflexivity.
Qed.

Lemma count_nonzero_zeros (D : nat) : count_nonzero (repeat 0 D) = 0.
Proof.
  apply count_nonzero_all_zero. unfold all_zero.
  apply Forall_forall. intros v Hv. apply repeat_spec in Hv. exact Hv.
Qed.

Lemma row_dist_zeros (D N i j : nat) :
  (i < N)%nat -> (j < N)%nat ->
  row_dist (repeat (repeat 0 D) N) i j = 0%float.
Proof.
  intros Hi Hj. unfold row_dist.
  rewrite !(nth_repeat_lt (repeat 0 D) []) by assumption.
  rewrite agree_nonzero_self, count_nonzero_zeros. reflexivity.
Qed.

(** On a feature matrix of two or more rows that are all zero, every
    row finds another row at distance 0, and the [bit_tanimoto] of the
    two all-zero rows divides by zero: [nearest_average_tanimoto] raises
    [ZeroDivisionError]. *)
Theorem nearest_average_tanimoto_zero_rows (D N : nat) :
  (2 <= N)%nat ->
  nearest_average_tanimoto (repeat (repeat 0 D) N) = Raise ZeroDivisionError.
Proof.
  intros HN. remember (repeat (repeat 0 D) N) as x eqn:Ex.
  assert (Hlen : @length vec x = N) by (subst x; apply repeat_length).
  assert (Hrect : Forall (fun row => length row = D) x).
  { apply Forall_forall. intros row Hrow. subst x.
    apply repeat_spec in Hrow. subst row. apply repeat_length. }
  assert (H0 : (0 < @length vec x)%nat) by lia.
  destruct (shortest_tanimoto_near x D 0 Hrect H0) as [(Hb & _) Hshort].
  { exists 1%nat. rewrite Hlen. repeat split; [lia | discriminate|].
    subst x. rewrite row_dist_zeros by lia. reflexivity. }
  assert (Hraise : shortest_tanimoto x 0 = Raise ZeroDivisionError).
  { rewrite Hshort. rewrite Hlen in Hb. subst x.
    rewrite !(nth_repeat_lt (repeat 0 D) []) by lia.
    rewrite bit_tanimoto_eq by lia.
    rewrite agree_nonzero_self, count_nonzero_zeros. reflexivity. }
  unfold nearest_average_tanimoto, tani_loop, enumerate. rewrite Hlen.
  destruct N as [|N']; [lia|].
  cbn [seq for_each]. rewrite Hraise. reflexivity.
Qed.

Lemma nearest_average_tanimoto_zero_rows_witness :
  nearest_average_tanimoto (repeat (repeat 0 4) 3) = Raise ZeroDivisionError.
Proof.
  apply (nearest_average_tanimoto_zero_rows 4 3). lia.
Defined.

Lemma nearest_average_tanimoto_near_rows_witness :
  (Nat.lt (nearest [[1; 0; 0]; [1; 1; 0]; [0; 0; 1]] 2) 3
   /\ nearest [[1; 0; 0]; [1; 1; 0]; [0; 0; 1]] 2 <> 2%nat)
  /\ nearest_average_tanimoto [[1; 0; 0]; [1; 1; 0]; [0; 0; 1]]
     = (tani <- for_each
                  (fun tani i =>
                     t <- bit_tanimoto
                            (nth i [[1; 0; 0]; [1; 1; 0]; [0; 0; 1]] [])
                            (nth (nearest [[1; 0; 0]; [1; 1; 0]; [0; 0; 1]] i)
                               [[1; 0; 0]; [1; 1; 0]; [0; 0; 1]] []) ;;
                     Ok (tani ++ [t]))
                  (enumerate [[1; 0; 0]; [1; 1; 0]; [0; 0; 1]]) [] ;;
        Ok (np_average tani)).
Proof.
  destruct (nearest_average_tanimoto_near_rows
              [[1; 0; 0]; [1; 1; 0]; [0; 0; 1]] 3) as [Hn Havg].
  - repeat constructor.
  - intros i Hi. destruct i as [|[|[|i]]].
    + exists 1%nat. repeat split; [simpl; lia | discriminate].
    + exists 0%nat. repeat split; [simpl; lia | discriminate].
    + exists 0%nat. repeat split; [simpl; lia | discriminate].
    + simpl in Hi. lia.
  - split; [|exact Havg].
    destruct (Hn 2%nat ltac:(simpl; lia)) as (H1 & H2 & _).
    split; [exact H1 | exact H2].
Defined.

(** Two vectors that agree on no nonzero entry, and are not both all
    zero, have the [bit_tanimoto] similarity exactly 0.0. *)
Theorem bit_tanimoto_disjoint (a b : vec) :
  (length a <= length b)%nat ->
  agree_nonzero a b = 0 ->
  ~ (all_zero a /\ all_zero b) ->
  bit_tanimoto a b = Ok 0%float.
Proof.
  intros Hlen Hc Hnz. rewrite bit_tanimoto_eq by exact Hlen. rewrite Hc.
  assert (Hden : 0 < count_nonzero a + count_nonzero b - 0).
  { pose proof (agree_nonzero_bounds a b).
    destruct (Z.eq_dec (count_nonzero a + count_nonzero b) 0) as [Hz|]; [|lia].
    exfalso. apply Hnz. rewrite !count_nonzero_all_zero. lia. }
  unfold py_truediv.
  destruct (Z.eqb_spec (count_nonzero a + count_nonzero b - 0) 0); [lia|].
  rewrite Zdiv2float_zero by exact Hden. reflexivity.
Qed.

Lemma bit_tanimoto_disjoint_witness :
  bit_tanimoto [1; 0; 0; 1] [0; 1; 1; 0] = Ok 0%float.
Proof.
  apply (bit_tanimoto_disjoint [1; 0; 0; 1] [0; 1; 1; 0]).
  - simpl. lia.
  - reflexivity.
  - intros [Ha _]. pose proof (all_zero_elim _ Ha 1 (or_introl eq_refl)).
    discriminate.
Defined.

(** Half: the quotient of a positive integer by its double is exactly
    0.5. *)
Lemma SFdiv_double (m : positive) :
  SFdiv prec emax (S754_finite false m 0) (S754_finite false m~0 0)
  = S754_finite false 4503599627370496 (-53).
Proof.
  unfold SFdiv, SFdiv_core_binary. cbn [Zdigits2 digits2_pos].
  replace (Z.pos (digits2_pos m) + 0 - (Z.pos (Pos.succ (digits2_pos m)) + 0))
    with (-1) by lia.
  change (Z.min (fexp prec emax (-1)) (0 - 0)) with (-54).
  change (0 - 0 - -54) with 54.
  cbv iota beta.
  rewrite Z.shiftl_mul_pow2 by lia.
  assert (Hdiv : Z.div_eucl (Z.pos m * 2 ^ 54) (Z.pos m~0) = (2 ^ 53, 0)).
  { pose proof (Z.div_eucl_eq (Z.pos m * 2 ^ 54) (Z.pos m~0)) as Heq.
    pose proof (Z.mod_pos_bound (Z.pos m * 2 ^ 54) (Z.pos m~0)) as Hb.
    unfold Z.modulo in Hb.
    destruct (Z.div_eucl (Z.pos m * 2 ^ 54) (Z.pos m~0)) as [q r].
    specialize (Heq ltac:(lia)). specialize (Hb ltac:(lia)).
    rewrite Pos2Z.inj_xO in *.
    assert (q = 2 ^ 53) by nia. subst q.
    f_equal. lia. }
  rewrite Hdiv.
  assert (Hloc : new_location (Z.pos m~0) 0 = loc_Exact).
  { unfold new_location. destruct (Z.even (Z.pos m~0)); reflexivity. }
  rewrite Hloc. reflexivity.
Qed.

Lemma Zdiv2float_double (n : Z) : 0 < n -> Zdiv2float n (2 * n) = 0.5%float.
Proof.
  intros Hn. destruct n as [|m|m]; try lia.
  unfold Zdiv2float. change (2 * Z.pos m) with (Z.pos m~0).
  cbn [Z2SF]. rewrite SFdiv_double. reflexivity.
Qed.

Lemma dot_complement (a : vec) :
  binary a -> dot a (rsub 1 a) = 0 /\ dot (rsub 1 a) (rsub 1 (rsub 1 a)) = 0.
Proof.
  unfold binary, dot, rsub.
  induction 1 as [|x a Hx _ [IH1 IH2]]; [split; reflexivity|].
  cbn [map map2 fold_right]. rewrite IH1, IH2.
  destruct Hx as [->| ->]; split; reflexivity.
Qed.

(** A bit vector and its complement [1 - a] share no 1 and no 0: their
    [modified_tanimoto] similarity is exactly 0.0 (for any length but
    0). *)
Theorem modified_tanimoto_complement (a : vec) :
  binary a -> a <> [] ->
  modified_tanimoto a (rsub 1 a) = Ok 0%float.
Proof.
  intros Ha Hne.
  rewrite modified_tanimoto_eq by (unfold rsub; rewrite length_map; reflexivity).
  destruct (dot_complement a Ha) as [-> ->].
  unfold len.
  assert (HN : 0 < Z.of_nat (length a)) by (destruct a; [congruence | simpl; lia]).
  set (N := Z.of_nat (length a)) in *.
  destruct (Z.eqb_spec N 0) as [|_]; [lia|].
  unfold mt_formula.
  destruct (Z.eqb_spec 0 N) as [|_]; [lia|].
  replace (N - 0 + 0) with N by lia. replace (N - 0) with N by lia.
  rewrite Zdiv2float_zero by lia. rewrite Zdiv2float_double by lia.
  reflexivity.
Qed.

Lemma modified_tanimoto_complement_witness :
  modified_tanimoto [1; 0; 1; 1] (rsub 1 [1; 0; 1; 1]) = Ok 0%float.
Proof.
  apply (modified_tanimoto_complement [1; 0; 1; 1]
           (binary_intro [1; 0; 1; 1] eq_refl)).
  discriminate.
Defined.
